(** * Canvas components of ai-task-hub: a shallow embedding

    Two React components are embedded here:

    - [CollaborationCursors] (src/components/canvas/collaboration-cursors.tsx),
      a pure function from a cursor list and a zoom percentage to a list of
      markers;
    - [CanvasElement] (src/components/canvas/canvas-element.tsx), a component
      with local state ([useState]), one effect ([useEffect]) that registers
      document listeners, and a render function by shape kind.

    JavaScript numbers are modelled as exact rationals ([Q]): the arithmetic
    of the components is [+], [-], [*], [/], [Math.min] and [Math.max];
    rounding, infinities and NaN of IEEE doubles are outside the model.
    The one expression of the components whose rounding shows against the
    way the spec writes it, the scaling of a cursor by the zoom, is embedded
    a second time with IEEE binary64 numbers ([CollaborationCursorsDoubles]).
    Class names and animation props carry no behaviour and are left out.

    React is modelled as far as the component relies on it:
    - a render is one call of the function body, with the props passed by
      the parent and the state cells as they are; the handlers it defines
      close over these values;
    - the handlers attached in the JSX are those of the render on screen;
    - an effect runs after the first render and after every render in
      which one of its dependencies differs ([Object.is]) from the render
      before; what it registered earlier stays in place otherwise;
    - state setters called by one handler are batched into one render. *)

From Stdlib Require Import QArith Qminmax.
From stdpp Require Import base list strings pretty.
From Corelib Require Import PrimFloat.

Local Open Scope Q_scope.

(** A JavaScript [number]. *)
Definition number : Type := Q.

(* ===================================================================== *)
(** ** collaboration-cursors.tsx *)
(* ===================================================================== *)

Module CollaborationCursors.

(** Modelled from the spec: the type [CursorPosition] is imported from
    [@/lib/realtime], which is outside the source slice; the spec gives
    its shape as [{ user: {id, name, avatar_url}, x, y }].  The component
    reads exactly these fields. *)
Record User := {
  user_id : string;
  name : string;
  avatar_url : option string
}.

Record CursorPosition := {
  user : User;
  x : number;
  y : number
}.

(** [const cursorColors = [...]] *)
Definition cursorColors : list string :=
  [ "#3B82F6"; "#8B5CF6"; "#10B981"; "#F97316";
    "#EF4444"; "#EC4899"; "#14B8A6"; "#F59E0B" ]%string.

(** One [<motion.div key=...>] of the overlay: its React key, the [left]
    and [top] of its style, the colour used for the pointer glyph
    ([fill]), for the badge border and for the avatar fallback, and the
    badge's avatar source and label.  [color] is [None] where the array
    read [cursorColors[...]] would give [undefined]. *)
Record Marker := {
  key : string;
  left : number;
  top : number;
  color : option string;
  avatar_src : option string;
  label : string
}.

(** The body of [cursors.map((cursor, index) => ...)]. *)
Definition renderCursor (zoom : number) (index : nat) (cursor : CursorPosition)
  : Marker :=
  let color := cursorColors !! (index mod length cursorColors)%nat in
  {| key := user_id (user cursor);
     left := x cursor * (zoom / 100);
     top := y cursor * (zoom / 100);
     color := color;
     avatar_src := avatar_url (user cursor);
     label := name (user cursor) |}.

(** [CollaborationCursors({ cursors, zoom })]: the children of the
    overlay, one per cursor, in list order. *)
Definition CollaborationCursors (cursors : list CursorPosition) (zoom : number)
  : list Marker :=
  imap (renderCursor zoom) cursors.

(** *** Sample inputs *)

Definition sample_user (n : string) : User :=
  {| user_id := n; name := n; avatar_url := None |}.

(** Ten collaborators, so that the palette wraps around; the tenth is
    the same person as the second. *)
Definition sample_cursors : list CursorPosition :=
  [ {| user := sample_user "ann"; x := 0; y := 0 |};
    {| user := sample_user "bob"; x := 20; y := 7 |};
    {| user := sample_user "cy"; x := 3; y := 4 |};
    {| user := sample_user "dee"; x := 1; y := 1 |};
    {| user := sample_user "eve"; x := 2; y := 2 |};
    {| user := sample_user "fay"; x := 5; y := 5 |};
    {| user := sample_user "gus"; x := 6; y := 6 |};
    {| user := sample_user "hal"; x := 8; y := 8 |};
    {| user := sample_user "ida"; x := 9; y := 9 |};
    {| user := sample_user "bob"; x := 3 # 2; y := -4 |} ].

End CollaborationCursors.

(* ===================================================================== *)
(** ** collaboration-cursors.tsx, with numbers as doubles *)
(* ===================================================================== *)

(** The same component with a JavaScript [number] read as what it is, an
    IEEE binary64 value (the kernel's primitive [float], whose operations
    round to nearest, ties to even, as the engine's do).  Users and the
    palette are those of [CollaborationCursors]. *)
Module CollaborationCursorsDoubles.

Record CursorPosition := {
  user : CollaborationCursors.User;
  x : float;
  y : float
}.

Record Marker := {
  key : string;
  left : float;
  top : float;
  color : option string;
  avatar_src : option string;
  label : string
}.

(** The body of [cursors.map((cursor, index) => ...)] (lines 27-42):
    [left: cursor.x * (zoom / 100)], [top: cursor.y * (zoom / 100)]. *)
Definition renderCursor (zoom : float) (index : nat) (cursor : CursorPosition)
  : Marker :=
  let color :=
    CollaborationCursors.cursorColors
      !! (index mod length CollaborationCursors.cursorColors)%nat in
  {| key := CollaborationCursors.user_id (user cursor);
     left := (x cursor * (zoom / 100))%float;
     top := (y cursor * (zoom / 100))%float;
     color := color;
     avatar_src := CollaborationCursors.avatar_url (user cursor);
     label := CollaborationCursors.name (user cursor) |}.

Definition CollaborationCursors (cursors : list CursorPosition) (zoom : float)
  : list Marker :=
  imap (renderCursor zoom) cursors.

(** *** Sample inputs *)

Definition sample_cursors : list CursorPosition :=
  [ {| user := CollaborationCursors.sample_user "ann"; x := 3%float; y := 7%float |};
    {| user := CollaborationCursors.sample_user "bob";
       x := 1.5%float; y := (-4)%float |} ].

End CollaborationCursorsDoubles.

(* ===================================================================== *)
(** ** canvas-element.tsx *)
(* ===================================================================== *)

Module CanvasElement.

(** *** Props *)

Inductive Priority := low | medium | high.

Record KanbanCard := {
  card_id : string;
  card_title : string;
  description : option string;
  card_color : option string;
  priority : option Priority;
  tags : option (list string)
}.

Record KanbanColumn := {
  column_id : string;
  column_title : string;
  cards : list KanbanCard
}.

Record KanbanData := { columns : list KanbanColumn }.

(** The union of string literals of the [type] prop. *)
Inductive ElementType :=
| rectangle | circle | text | sticky | frame | line | arrow | pen | kanban.

Record Point := { px : number; py : number }.

(** A function value handed down by the parent, known by its identity. *)
Definition callback : Type := nat.

(** [interface CanvasElementProps]; a field marked [?] is an [option]. *)
Record CanvasElementProps := {
  id : string;
  type : ElementType;
  x : number;
  y : number;
  width : option number;
  height : option number;
  content : option string;
  color : option string;
  strokeWidth : option number;
  points : option (list Point);
  rotation : option number;
  locked : option bool;
  kanbanData : option KanbanData;
  onUpdate : option callback;
  onSelect : option callback;
  isSelected : option bool;
  zoom : option number
}.

(** The destructuring of the parameter, [{ ..., width = 100, ... }]:
    each [get_f] is the local binding [f] of the function body. *)
Definition get_width (p : CanvasElementProps) : number := default 100 (width p).
Definition get_height (p : CanvasElementProps) : number := default 100 (height p).
Definition get_content (p : CanvasElementProps) : string := default ""%string (content p).
Definition get_color (p : CanvasElementProps) : string := default "#6366f1"%string (color p).
Definition get_strokeWidth (p : CanvasElementProps) : number := default 2 (strokeWidth p).
Definition get_points (p : CanvasElementProps) : list Point := default [] (points p).
Definition get_rotation (p : CanvasElementProps) : number := default 0 (rotation p).
Definition get_locked (p : CanvasElementProps) : bool := default false (locked p).
Definition get_isSelected (p : CanvasElementProps) : bool := default false (isSelected p).
Definition get_zoom (p : CanvasElementProps) : number := default 100 (zoom p).

(** [Partial<CanvasElementProps>], restricted to the keys this component
    ever puts in an update. *)
Record Partial := {
  upd_x : option number;
  upd_y : option number;
  upd_content : option string;
  upd_locked : option bool;
  upd_kanbanData : option KanbanData
}.

(** [{ x: a, y: b }] *)
Definition position_update (a b : number) : Partial :=
  {| upd_x := Some a; upd_y := Some b; upd_content := None;
     upd_locked := None; upd_kanbanData := None |}.
(** [{ content: s }] *)
Definition content_update (s : string) : Partial :=
  {| upd_x := None; upd_y := None; upd_content := Some s;
     upd_locked := None; upd_kanbanData := None |}.
(** [{ locked: b }] *)
Definition locked_update (b : bool) : Partial :=
  {| upd_x := None; upd_y := None; upd_content := None;
     upd_locked := Some b; upd_kanbanData := None |}.
(** [{ kanbanData: d }] *)
Definition kanban_update (d : KanbanData) : Partial :=
  {| upd_x := None; upd_y := None; upd_content := None;
     upd_locked := None; upd_kanbanData := Some d |}.

(** *** Local state *)

(** The object held by [dragOffset].  [ref] is the identity of the
    object: the dependency array of the effect compares it with
    [Object.is], which for objects is identity, not contents. *)
Record Offset := { ref : nat; off_x : number; off_y : number }.

(** The five [useState] cells. *)
Record State := {
  isDragging : bool;
  isResizing : bool;
  dragOffset : Offset;
  isEditing : bool;
  isHovered : bool
}.

(** One execution of the function body: the props it was called with and
    the state it read.  Every handler defined in the body is a closure
    over these values. *)
Record Render := { props : CanvasElementProps; st : State }.

(** What a handler does, in program order. *)
Inductive Call :=
| call_onUpdate (f : callback) (elem : string) (updates : Partial)
| call_onSelect (f : callback) (elem : string).

Inductive Action :=
| stopPropagation
| setIsDragging (b : bool)
| setIsResizing (b : bool)
| setDragOffset (ox oy : number)
| setIsEditing (b : bool)
| setIsHovered (b : bool)
| invoke (c : Call).

(** [f?.(args)] *)
Definition optional_call (f : option callback) (mk : callback -> Call)
  : list Action :=
  match f with
  | Some g => [invoke (mk g)]
  | None => []
  end.

(** *** Handlers (lines 71-114)

    A handler is a function of the render it was defined in: it reads
    the props and the state of that render, whenever it is called. *)

Definition handleMouseDown (r : Render) (clientX clientY : number) : list Action :=
  let p := props r in
  if get_locked p then []
  else
    [ stopPropagation;
      setIsDragging true;
      setDragOffset (clientX - x p) (clientY - y p) ]
    ++ optional_call (onSelect p) (fun f => call_onSelect f (id p)).

Definition handleDoubleClick (r : Render) : list Action :=
  let p := props r in
  if get_locked p then []
  else
    stopPropagation ::
    match type p with
    | text | sticky => [setIsEditing true]
    | _ => []
    end.

Definition handleMouseMove (r : Render) (clientX clientY : number) : list Action :=
  let p := props r in
  (* if (isDragging && onUpdate && !locked) *)
  match isDragging (st r), onUpdate p, get_locked p with
  | true, Some f, false =>
      [ invoke (call_onUpdate f (id p)
          (position_update (clientX - off_x (dragOffset (st r)))
                           (clientY - off_y (dragOffset (st r))))) ]
  | _, _, _ => []
  end.

Definition handleMouseUp (r : Render) : list Action :=
  [ setIsDragging false; setIsResizing false ].

Definition handleContentChange (r : Render) (newContent : string) : list Action :=
  optional_call (onUpdate (props r))
    (fun f => call_onUpdate f (id (props r)) (content_update newContent)).

Definition handleLockToggle (r : Render) : list Action :=
  optional_call (onUpdate (props r))
    (fun f => call_onUpdate f (id (props r))
                (locked_update (negb (get_locked (props r))))).

Definition handleKanbanUpdate (r : Render) (newKanbanData : KanbanData) : list Action :=
  optional_call (onUpdate (props r))
    (fun f => call_onUpdate f (id (props r)) (kanban_update newKanbanData)).

(** *** Rendering *)

(** A [width] or [height] of a style object: a number of pixels or the
    keyword ['auto']. *)
Inductive Size := Px (n : number) | Auto.

(** What the root [<motion.div>] of a shape contains. *)
Inductive Inner :=
| Plain
    (* rectangle, circle: nothing but the resize handles *)
| FrameLabel
    (* frame: the "Frame" tag *)
| Textarea (value : string) (placeholder : option string)
    (* the inline editing surface, with onChange, onBlur and onKeyDown *)
| Content (shown : string) (onClick : bool)
    (* the read-only text; [onClick] tells whether a click handler is
       attached to it *)
| SvgLine (svg_width svg_height x2 : number) (stroke : string)
          (stroke_width : number) (markerEnd : option string)
| SvgPath (svg_width svg_height : number) (d : string) (stroke : string)
          (stroke_width : number)
| Board (badge : option nat) (data : KanbanData) (board_locked : bool).
    (* the kanban header badge, if drawn, and the props of <KanbanBoard> *)

(** The root [<motion.div>] of a shape.  [onMouseDown], [onMouseEnter]
    and [onMouseLeave] are attached to every root; [onDoubleClick] only
    to some.  [style_width] and [style_height] are [None] where the style
    object has no such key. *)
Record Element := {
  style_left : number;
  style_top : number;
  style_width : option Size;
  style_height : option Size;
  style_transform : string;
  style_backgroundColor : option string;
  style_borderColor : option string;
  onDoubleClick : bool;
  inner : Inner;
  handles : bool
}.

(** The toolbar with the lock button. *)
Record Controls := {
  controls_left : number;
  controls_top : number;
  title : string
}.

(** What the component returns: [<div className="relative">] around the
    shape, if any, and the toolbar, if any. *)
Record View := { element : option Element; controls : option Controls }.

(** [Math.min(x0, ...rest)] and [Math.max(x0, ...rest)] on at least one
    argument.  With no argument JavaScript answers [Infinity] and
    [-Infinity], which are no rationals; the only calls of the source sit
    behind the guard [points.length < 2]. *)
Definition Math_min (x0 : number) (rest : list number) : number :=
  fold_left Qmin rest x0.
Definition Math_max (x0 : number) (rest : list number) : number :=
  fold_left Qmax rest x0.

(** [a || b] on strings: the empty string is falsy. *)
Definition or_else (a b : string) : string :=
  match a with
  | EmptyString => b
  | _ => a
  end.

Section Rendering.

(** The conversion of a number to text inside a template literal is a
    primitive of the language; it is a parameter here. *)
Variable Number_toString : number -> string.

(** [`rotate(${rotation}deg)`] *)
Definition transform_of (p : CanvasElementProps) : string :=
  ("rotate(" +:+ Number_toString (get_rotation p) +:+ "deg)")%string.

(** [`M ${points.map(p => `${p.x - minX},${p.y - minY}`).join(' L ')}`] *)
Definition path_d (minX minY : number) (pts : list Point) : string :=
  ("M " +:+
   String.concat " L "
     (map (fun p => Number_toString (px p - minX) +:+ "," +:+
                    Number_toString (py p - minY)) pts))%string.

(** [renderKanbanBoard] (lines 128-193) *)
Definition renderKanbanBoard (r : Render) : option Element :=
  let p := props r in
  match kanbanData p with
  | None => None
  | Some data =>
      Some {| style_left := x p;
              style_top := y p;
              style_width := Some (Px (get_width p));
              style_height := Some (Px (get_height p));
              style_transform := transform_of p;
              style_backgroundColor := None;
              style_borderColor := None;
              onDoubleClick := false;
              inner :=
                Board
                  (if negb (get_locked p) then
                     Some (fold_left
                             (fun total col => (total + length (cards col))%nat)
                             (columns data) 0%nat)
                   else None)
                  data (get_locked p);
              handles := get_isSelected p && negb (get_locked p) |}
  end.

(** [renderElement] (lines 195-536) *)
Definition renderElement (r : Render) : option Element :=
  let p := props r in
  let transform := transform_of p in
  let shown := or_else (get_content p) "Double-click to edit" in
  let with_handles := get_isSelected p && negb (get_locked p) in
  match type p with
  | kanban => renderKanbanBoard r
  | frame =>
      Some {| style_left := x p; style_top := y p;
              style_width := Some (Px (get_width p));
              style_height := Some (Px (get_height p));
              style_transform := transform;
              style_backgroundColor := None;
              style_borderColor := Some (get_color p);
              onDoubleClick := true;
              inner := FrameLabel;
              handles := with_handles |}
  | rectangle | circle =>
      Some {| style_left := x p; style_top := y p;
              style_width := Some (Px (get_width p));
              style_height := Some (Px (get_height p));
              style_transform := transform;
              style_backgroundColor := Some (get_color p +:+ "20")%string;
              style_borderColor := Some (get_color p);
              onDoubleClick := false;
              inner := Plain;
              handles := with_handles |}
  | text =>
      Some {| style_left := x p; style_top := y p;
              style_width :=
                Some (if Qeq_bool (get_width p) 100 then Auto
                      else Px (get_width p));
              style_height :=
                Some (if Qeq_bool (get_height p) 100 then Auto
                      else Px (get_height p));
              style_transform := transform;
              style_backgroundColor := None;
              style_borderColor := None;
              onDoubleClick := true;
              inner :=
                if isEditing (st r) then Textarea (get_content p) None
                else Content shown false;
              handles := false |}
  | sticky =>
      Some {| style_left := x p; style_top := y p;
              style_width := Some (Px (get_width p));
              style_height := Some (Px (get_height p));
              style_transform := transform;
              style_backgroundColor := Some (or_else (get_color p) "#fbbf24");
              style_borderColor := None;
              onDoubleClick := true;
              inner :=
                if isEditing (st r) then
                  Textarea (get_content p) (Some "Type your note..."%string)
                else Content shown true;
              handles := with_handles |}
  | line =>
      Some {| style_left := x p; style_top := y p;
              style_width := None; style_height := None;
              style_transform := transform;
              style_backgroundColor := None;
              style_borderColor := None;
              onDoubleClick := false;
              inner := SvgLine (get_width p) 8 (get_width p) (get_color p)
                         (get_strokeWidth p) None;
              handles := false |}
  | arrow =>
      Some {| style_left := x p; style_top := y p;
              style_width := None; style_height := None;
              style_transform := transform;
              style_backgroundColor := None;
              style_borderColor := None;
              onDoubleClick := false;
              inner := SvgLine (get_width p) 24 (get_width p - 12) (get_color p)
                         (get_strokeWidth p)
                         (Some ("url(#arrowhead-" +:+ id p +:+ ")")%string);
              handles := false |}
  | pen =>
      match get_points p with
      | [] | [_] => None
      | p0 :: rest =>
          let minX := Math_min (px p0) (map px rest) in
          let minY := Math_min (py p0) (map py rest) in
          let maxX := Math_max (px p0) (map px rest) in
          let maxY := Math_max (py p0) (map py rest) in
          Some {| style_left := minX; style_top := minY;
                  style_width := Some (Px (maxX - minX));
                  style_height := Some (Px (maxY - minY));
                  style_transform := transform;
                  style_backgroundColor := None;
                  style_borderColor := None;
                  onDoubleClick := false;
                  inner := SvgPath (maxX - minX) (maxY - minY)
                             (path_d minX minY (p0 :: rest))
                             (get_color p) (get_strokeWidth p);
                  handles := false |}
      end
  end.

(** The [return] of the component (lines 538-563). *)
Definition CanvasElement (r : Render) : View :=
  let p := props r in
  {| element := renderElement r;
     controls :=
       if (get_isSelected p || isHovered (st r))
          && negb (match type p with kanban => true | _ => false end)
       then Some {| controls_left := x p;
                    controls_top := y p - 48;
                    title := if get_locked p then "Unlock" else "Lock" |}
       else None |}.

End Rendering.

(** *** The mounted component *)

(** [useState(false)], [useState({ x: 0, y: 0 })], ...: the state of the
    first render.  The initial offset object is the first allocation. *)
Definition initial_state : State :=
  {| isDragging := false;
     isResizing := false;
     dragOffset := {| ref := 0; off_x := 0; off_y := 0 |};
     isEditing := false;
     isHovered := false |}.

(** A mounted component: the render that is on screen, the render whose
    [handleMouseMove] and [handleMouseUp] are registered on [document]
    (if any), and the next free object identity. *)
Record Instance := {
  current : Render;
  listener : option Render;
  next_ref : nat
}.

(** A state setter applied to the pending state.  [setDragOffset] is
    always called with a fresh object literal. *)
Definition set_state (acc : State * nat) (a : Action) : State * nat :=
  let '(s, fresh) := acc in
  match a with
  | setIsDragging b =>
      ({| isDragging := b; isResizing := isResizing s;
          dragOffset := dragOffset s; isEditing := isEditing s;
          isHovered := isHovered s |}, fresh)
  | setIsResizing b =>
      ({| isDragging := isDragging s; isResizing := b;
          dragOffset := dragOffset s; isEditing := isEditing s;
          isHovered := isHovered s |}, fresh)
  | setDragOffset ox oy =>
      ({| isDragging := isDragging s; isResizing := isResizing s;
          dragOffset := {| ref := fresh; off_x := ox; off_y := oy |};
          isEditing := isEditing s; isHovered := isHovered s |}, S fresh)
  | setIsEditing b =>
      ({| isDragging := isDragging s; isResizing := isResizing s;
          dragOffset := dragOffset s; isEditing := b;
          isHovered := isHovered s |}, fresh)
  | setIsHovered b =>
      ({| isDragging := isDragging s; isResizing := isResizing s;
          dragOffset := dragOffset s; isEditing := isEditing s;
          isHovered := b |}, fresh)
  | stopPropagation | invoke _ => (s, fresh)
  end.

Definition apply_actions (s : State) (fresh : nat) (acts : list Action)
  : State * nat :=
  fold_left set_state acts (s, fresh).

(** The calls a handler made on the parent's callbacks. *)
Definition calls_of (acts : list Action) : list Call :=
  omap (fun a => match a with invoke c => Some c | _ => None end) acts.

(** [[isDragging, isResizing, dragOffset]], the dependency array of the
    effect (line 126), as [Object.is] sees it.  Neither [locked] nor any
    other prop is a dependency. *)
Definition deps (r : Render) : bool * bool * nat :=
  (isDragging (st r), isResizing (st r), ref (dragOffset (st r))).

(** The body of the effect (lines 117-125): the handlers of render [r]
    are added to [document] when [isDragging || isResizing]; its cleanup
    removes the same two handlers. *)
Definition effect (r : Render) : option Render :=
  if isDragging (st r) || isResizing (st r) then Some r else None.

(** A render is committed.  The effect runs again (cleanup of the old
    one, then the body of the new one) exactly when a dependency
    changed; otherwise the listeners of the earlier render stay. *)
Definition commit (old : Instance) (r : Render) (fresh : nat) : Instance :=
  {| current := r;
     listener :=
       if decide (deps r = deps (current old)) then listener old
       else effect r;
     next_ref := fresh |}.

Definition mount (p : CanvasElementProps) : Instance :=
  let r := {| props := p; st := initial_state |} in
  {| current := r; listener := effect r; next_ref := 1 |}.

(** What can happen to a mounted component: a DOM event reaching one of
    the handlers of the tree on screen, a [mousemove] or [mouseup] on
    [document], the embedded board reporting a new value, or the parent
    rendering the component with new props. *)
Inductive Event :=
| MouseDown (clientX clientY : number)
| DoubleClick
| ContentClick
| MouseEnter
| MouseLeave
| TextareaChange (value : string)
| TextareaBlur
| TextareaKeyDown (key : string)
| LockClick
| BoardUpdate (newKanbanData : KanbanData)
| DocumentMouseMove (clientX clientY : number)
| DocumentMouseUp
| NewProps (p : CanvasElementProps).

Section Machine.

Variable Number_toString : number -> string.

(** The handler an event reaches, run in the closure it belongs to.
    Handlers in the tree belong to the render on screen; the two
    document listeners belong to the render that registered them.  An
    event with no handler attached does nothing. *)
Definition dispatch (i : Instance) (ev : Event) : list Action :=
  let r := current i in
  let v := CanvasElement Number_toString r in
  match ev with
  | MouseDown clientX clientY =>
      match element v with
      | Some _ => handleMouseDown r clientX clientY
      | None => []
      end
  | DoubleClick =>
      match element v with
      | Some e => if onDoubleClick e then handleDoubleClick r else []
      | None => []
      end
  | ContentClick =>
      (* onClick={() => !locked && setIsEditing(true)} *)
      match inner <$> element v with
      | Some (Content _ true) =>
          if negb (get_locked (props r)) then [setIsEditing true] else []
      | _ => []
      end
  | MouseEnter =>
      match element v with
      | Some _ => [setIsHovered true]
      | None => []
      end
  | MouseLeave =>
      match element v with
      | Some _ => [setIsHovered false]
      | None => []
      end
  | TextareaChange value =>
      match inner <$> element v with
      | Some (Textarea _ _) => handleContentChange r value
      | _ => []
      end
  | TextareaBlur =>
      match inner <$> element v with
      | Some (Textarea _ _) => [setIsEditing false]
      | _ => []
      end
  | TextareaKeyDown key =>
      match inner <$> element v with
      | Some (Textarea _ _) =>
          if String.eqb key "Escape" then [setIsEditing false] else []
      | _ => []
      end
  | LockClick =>
      match controls v with
      | Some _ => handleLockToggle r
      | None => []
      end
  | BoardUpdate newKanbanData =>
      match inner <$> element v with
      | Some (Board _ _ _) => handleKanbanUpdate r newKanbanData
      | _ => []
      end
  | DocumentMouseMove clientX clientY =>
      match listener i with
      | Some r0 => handleMouseMove r0 clientX clientY
      | None => []
      end
  | DocumentMouseUp =>
      match listener i with
      | Some r0 => handleMouseUp r0
      | None => []
      end
  | NewProps _ => []
  end.

(** One event: the handler runs, its state updates are batched into
    one new render, the render is committed; the calls made on the
    parent's callbacks are the output. *)
Definition step (i : Instance) (ev : Event) : Instance * list Call :=
  let acts := dispatch i ev in
  let '(s', fresh) := apply_actions (st (current i)) (next_ref i) acts in
  let p' := match ev with
            | NewProps p => p
            | _ => props (current i)
            end in
  (commit i {| props := p'; st := s' |} fresh, calls_of acts).

Fixpoint run (i : Instance) (evs : list Event) : Instance * list Call :=
  match evs with
  | [] => (i, [])
  | ev :: rest =>
      let '(i', out) := step i ev in
      let '(i'', out') := run i' rest in
      (i'', out ++ out')
  end.

(** The instances a mounted component can be in. *)
Inductive reachable : Instance -> Prop :=
| reachable_mount (p : CanvasElementProps) : reachable (mount p)
| reachable_step (i : Instance) (ev : Event) :
    reachable i -> reachable (fst (step i ev)).

End Machine.

(** *** Notions used to state the properties *)

(** An event that neither starts a drag anew nor ends it: anything but a
    pointer-down on the shape and a pointer-up. *)
Definition continues_drag (ev : Event) : Prop :=
  match ev with
  | MouseDown _ _ | DocumentMouseUp => False
  | _ => True
  end.

(** An event under which the [locked] prop stays [true]: the parent may
    render with any new props that are still locked. *)
Definition keeps_locked (ev : Event) : Prop :=
  match ev with
  | NewProps p => get_locked p = true
  | _ => True
  end.

(** An action that leaves the three dependencies of the effect alone. *)
Definition drag_neutral (a : Action) : Prop :=
  match a with
  | setIsDragging _ | setIsResizing _ | setDragOffset _ _ => False
  | _ => True
  end.

(** An action that starts neither a drag nor an edit. *)
Definition starts_nothing (a : Action) : Prop :=
  match a with
  | setIsDragging true | setIsEditing true => False
  | _ => True
  end.

(** The allocator of object identities is ahead of the offset object in
    use, so the next object literal is a new object. *)
Definition well_formed (i : Instance) : Prop :=
  (ref (dragOffset (st (current i))) < next_ref i)%nat.

(** [m] is the least (greatest) number of [l]. *)
Definition is_minimum (m : number) (l : list number) : Prop :=
  In m l /\ forall v, In v l -> m <= v.
Definition is_maximum (m : number) (l : list number) : Prop :=
  In m l /\ forall v, In v l -> v <= m.

(** The point sequence moved by [(-dx, -dy)]. *)
Definition translated (dx dy : number) (pts : list Point) : list (number * number) :=
  map (fun p => (px p - dx, py p - dy)) pts.

(** The number of cards of a board: the sum, over its columns, of the
    number of cards of the column. *)
Definition total_cards (data : KanbanData) : nat :=
  sum_list (map (fun col => length (cards col)) (columns data)).

(** *** Sample inputs *)

(** Decimal text of an integral number, as JavaScript prints it.  It
    serves to run the examples, whose coordinates are integers. *)
Definition integer_toString (n : number) : string :=
  pretty (Qnum n / Zpos (Qden n))%Z.

Definition sample (t : ElementType) : CanvasElementProps :=
  {| id := "e1"; type := t; x := 40; y := 30;
     width := None; height := None; content := None; color := None;
     strokeWidth := None; points := None; rotation := None;
     locked := None; kanbanData := None;
     onUpdate := Some 1%nat; onSelect := Some 2%nat;
     isSelected := None; zoom := None |}.

Definition with_locked (b : bool) (p : CanvasElementProps) : CanvasElementProps :=
  {| id := id p; type := type p; x := x p; y := y p;
     width := width p; height := height p; content := content p;
     color := color p; strokeWidth := strokeWidth p; points := points p;
     rotation := rotation p; locked := Some b; kanbanData := kanbanData p;
     onUpdate := onUpdate p; onSelect := onSelect p;
     isSelected := isSelected p; zoom := zoom p |}.

Definition with_points (pts : list Point) (p : CanvasElementProps) : CanvasElementProps :=
  {| id := id p; type := type p; x := x p; y := y p;
     width := width p; height := height p; content := content p;
     color := color p; strokeWidth := strokeWidth p; points := Some pts;
     rotation := rotation p; locked := locked p; kanbanData := kanbanData p;
     onUpdate := onUpdate p; onSelect := onSelect p;
     isSelected := isSelected p; zoom := zoom p |}.

Definition with_kanbanData (d : KanbanData) (p : CanvasElementProps) : CanvasElementProps :=
  {| id := id p; type := type p; x := x p; y := y p;
     width := width p; height := height p; content := content p;
     color := color p; strokeWidth := strokeWidth p; points := points p;
     rotation := rotation p; locked := locked p; kanbanData := Some d;
     onUpdate := onUpdate p; onSelect := onSelect p;
     isSelected := isSelected p; zoom := zoom p |}.

Definition sample_card (n : string) : KanbanCard :=
  {| card_id := n; card_title := n; description := None;
     card_color := None; priority := None; tags := None |}.

(** A board of three columns holding 2, 0 and 1 cards. *)
Definition sample_board : KanbanData :=
  {| columns :=
       [ {| column_id := "todo"; column_title := "To do";
            cards := [sample_card "a"; sample_card "b"] |};
         {| column_id := "doing"; column_title := "Doing"; cards := [] |};
         {| column_id := "done"; column_title := "Done";
            cards := [sample_card "c"] |} ] |}.

(** The stroke of the spec's example. *)
Definition sample_stroke : list Point :=
  [ {| px := 0; py := 0 |}; {| px := 10; py := 0 |}; {| px := 10; py := 10 |} ].

(** *** Further notions used to state properties of the lifecycle *)

(** An action that touches no state cell: a call upwards or
    [e.stopPropagation()]. *)
Definition state_free (a : Action) : Prop :=
  match a with
  | stopPropagation | invoke _ => True
  | _ => False
  end.

(** An action other than [setIsResizing(true)]. *)
Definition never_resizes (a : Action) : Prop :=
  match a with
  | setIsResizing true => False
  | _ => True
  end.

(** An event that is delivered to a handler attached inside the shape:
    its root, its text, its textarea or the embedded board. *)
Definition on_shape (ev : Event) : Prop :=
  match ev with
  | MouseDown _ _ | DoubleClick | ContentClick | MouseEnter | MouseLeave
  | TextareaChange _ | TextareaBlur | TextareaKeyDown _ | BoardUpdate _ => True
  | LockClick | DocumentMouseMove _ _ | DocumentMouseUp | NewProps _ => False
  end.

(** What every mounted component satisfies (proved below for the
    reachable instances): object identities are handed out once, the
    component is never Resizing, and the listeners on [document] are
    there exactly while Dragging; the render they belong to was
    Dragging and unlocked and holds the offset object still in use. *)
Definition lifecycle_invariant (i : Instance) : Prop :=
  well_formed i /\
  isResizing (st (current i)) = false /\
  match listener i with
  | Some r0 =>
      isDragging (st (current i)) = true /\
      isDragging (st r0) = true /\
      get_locked (props r0) = false /\
      dragOffset (st r0) = dragOffset (st (current i))
  | None => isDragging (st (current i)) = false
  end.

(** The props [p] with other [x], [y], [width] and [height]. *)
Definition with_geometry (a b : number) (w h : option number)
    (p : CanvasElementProps) : CanvasElementProps :=
  {| id := id p; type := type p; x := a; y := b;
     width := w; height := h; content := content p;
     color := color p; strokeWidth := strokeWidth p; points := points p;
     rotation := rotation p; locked := locked p; kanbanData := kanbanData p;
     onUpdate := onUpdate p; onSelect := onSelect p;
     isSelected := isSelected p; zoom := zoom p |}.

Definition with_isSelected (b : bool) (p : CanvasElementProps) : CanvasElementProps :=
  {| id := id p; type := type p; x := x p; y := y p;
     width := width p; height := height p; content := content p;
     color := color p; strokeWidth := strokeWidth p; points := points p;
     rotation := rotation p; locked := locked p; kanbanData := kanbanData p;
     onUpdate := onUpdate p; onSelect := onSelect p;
     isSelected := Some b; zoom := zoom p |}.

End CanvasElement.

(* ===================================================================== *)
(** ** Properties of the cursor overlay *)
(* ===================================================================== *)

Module CollaborationCursorsFacts.
Import CollaborationCursors.

Lemma lookup_marker (cursors : list CursorPosition) (zoom : number) (i : nat) :
  CollaborationCursors cursors zoom !! i = renderCursor zoom i <$> cursors !! i.
Proof. unfold CollaborationCursors. apply list_lookup_imap. Qed.

Lemma palette_lookup (i : nat) : is_Some (cursorColors !! (i mod 8)%nat).
Proof.
  apply lookup_lt_is_Some. change (length cursorColors) with 8%nat.
  apply Nat.mod_upper_bound. discriminate.
Qed.

(** In exact arithmetic, that is rounding apart, the marker drawn for
    the cursor at raw canvas coordinates [(x, y)] under zoom percentage
    [z] sits at [(x*z/100, y*z/100)]. *)
Theorem marker_position_scaled
    (cursors : list CursorPosition) (zoom : number) (i : nat) (c : CursorPosition) :
  cursors !! i = Some c ->
  exists m,
    CollaborationCursors cursors zoom !! i = Some m /\
    left m == x c * zoom / 100 /\
    top m == y c * zoom / 100.
Proof.
  intros Hc. exists (renderCursor zoom i c). split.
  - rewrite lookup_marker, Hc. reflexivity.
  - cbn [renderCursor left top]. split; unfold Qdiv; ring.
Qed.

Lemma marker_position_scaled_witness :
  exists m,
    CollaborationCursors sample_cursors 150 !! 9%nat = Some m /\
    left m == 9 # 4 /\ top m == -6.
Proof.
  destruct (marker_position_scaled sample_cursors 150 9
              {| user := sample_user "bob"; x := 3 # 2; y := -4 |} eq_refl)
    as (m & Hm & Hl & Ht).
  exists m. split; [exact Hm|]. split.
  - rewrite Hl. vm_compute. reflexivity.
  - rewrite Ht. vm_compute. reflexivity.
Defined.

(** C8: the colour of the i-th marker is the entry [i mod 8] of the
    palette of eight colours; it is the same for every cursor list and
    zoom, so it does not depend on who the collaborator is. *)
Theorem marker_color_by_index
    (cursors : list CursorPosition) (zoom : number) (i : nat) (m : Marker) :
  CollaborationCursors cursors zoom !! i = Some m ->
  length cursorColors = 8%nat /\
  (exists col, cursorColors !! (i mod 8)%nat = Some col /\ color m = Some col) /\
  (forall cursors' zoom' m',
      CollaborationCursors cursors' zoom' !! i = Some m' -> color m' = color m).
Proof.
  rewrite lookup_marker. intros Hm.
  destruct (cursors !! i) as [c|] eqn:Hc; [|discriminate].
  injection Hm as <-. split; [reflexivity|]. split.
  - destruct (palette_lookup i) as [col Hcol]. exists col. split; [exact Hcol|].
    cbn [renderCursor color]. exact Hcol.
  - intros cursors' zoom' m'. rewrite lookup_marker. intros Hm'.
    destruct (cursors' !! i) as [c'|]; [|discriminate].
    injection Hm' as <-. reflexivity.
Qed.

Lemma marker_color_by_index_witness :
  color (renderCursor 100 9 {| user := sample_user "bob"; x := 3 # 2; y := -4 |})
  = Some "#8B5CF6"%string /\
  color <$> CollaborationCursors sample_cursors 100 !! 1%nat
  = Some (Some "#8B5CF6"%string).
Proof.
  destruct (marker_color_by_index sample_cursors 100 9
              (renderCursor 100 9 {| user := sample_user "bob"; x := 3 # 2; y := -4 |})
              eq_refl) as (_ & (col & Hcol & Hm) & _).
  split.
  - rewrite Hm, <- Hcol. reflexivity.
  - reflexivity.
Defined.

End CollaborationCursorsFacts.

(* ===================================================================== *)
(** ** The position of a marker, in doubles *)
(* ===================================================================== *)

Module CollaborationCursorsDoublesFacts.
Import CollaborationCursorsDoubles.

(** C7, amended: the marker drawn for the cursor at raw canvas
    coordinates [(x, y)] under zoom percentage [z] sits at
    [(x * (z / 100), y * (z / 100))] as doubles compute it: the quotient
    [z / 100] is taken, and rounded, first, and the coordinate is
    multiplied by it. *)
Theorem marker_position_in_doubles
    (cursors : list CursorPosition) (zoom : float) (i : nat) (c : CursorPosition) :
  cursors !! i = Some c ->
  exists m,
    CollaborationCursors cursors zoom !! i = Some m /\
    left m = (x c * (zoom / 100))%float /\
    top m = (y c * (zoom / 100))%float.
Proof.
  intros Hc. exists (renderCursor zoom i c).
  unfold CollaborationCursors. rewrite list_lookup_imap, Hc.
  repeat split.
Qed.

(** At zoom 150 the cursor at (1.5, -4) is drawn at (2.25, -6). *)
Lemma marker_position_in_doubles_witness :
  exists m,
    CollaborationCursors sample_cursors 150 !! 1%nat = Some m /\
    left m = 2.25%float /\ top m = (-6)%float.
Proof.
  destruct (marker_position_in_doubles sample_cursors 150 1
              {| user := CollaborationCursors.sample_user "bob";
                 x := 1.5%float; y := (-4)%float |} eq_refl)
    as (m & Hm & Hl & Ht).
  exists m. split; [exact Hm|]. split.
  - rewrite Hl. vm_compute. reflexivity.
  - rewrite Ht. vm_compute. reflexivity.
Defined.

(** C7 as stated fails in doubles: at zoom 110 the cursor at (3, 7) is
    drawn at [3 * (110 / 100)] = 3.3000000000000003 and
    [7 * (110 / 100)] = 7.700000000000001, one unit in the last place
    above [3 * 110 / 100] = 3.3 and [7 * 110 / 100] = 7.7. *)
Lemma marker_position_rounds_twice :
  exists m,
    CollaborationCursors sample_cursors 110 !! 0%nat = Some m /\
    left m = 0x1.a666666666667p+1%float /\
    (3 * 110 / 100)%float = 0x1.a666666666666p+1%float /\
    left m <> (3 * 110 / 100)%float /\
    top m <> (7 * 110 / 100)%float.
Proof.
  eexists. split; [reflexivity|]. split; [reflexivity|]. split; [reflexivity|].
  split; intros H.
  - apply (f_equal (fun z => PrimFloat.eqb z (3 * 110 / 100))) in H.
    vm_compute in H. discriminate H.
  - apply (f_equal (fun z => PrimFloat.eqb z (7 * 110 / 100))) in H.
    vm_compute in H. discriminate H.
Qed.

End CollaborationCursorsDoublesFacts.

(* ===================================================================== *)
(** ** Properties of what a canvas element draws *)
(* ===================================================================== *)

Module CanvasElementRenderFacts.
Import CanvasElement.

(** *** [Math.min] and [Math.max] *)

Lemma Qmin_cases (a b : number) : Qmin a b = a \/ Qmin a b = b.
Proof.
  unfold Qmin, GenericMinMax.gmin. destruct (a ?= b); auto.
Qed.

Lemma Qmax_cases (a b : number) : Qmax a b = a \/ Qmax a b = b.
Proof.
  unfold Qmax, GenericMinMax.gmax. destruct (a ?= b); auto.
Qed.

Lemma Math_min_is_minimum (rest : list number) :
  forall x0, is_minimum (Math_min x0 rest) (x0 :: rest).
Proof.
  induction rest as [|a rest IH]; intros x0.
  - split; [left; reflexivity|].
    intros v [<-|[]]. apply Qle_refl.
  - destruct (IH (Qmin x0 a)) as [Hin Hle].
    change (Math_min x0 (a :: rest)) with (Math_min (Qmin x0 a) rest).
    split.
    + destruct Hin as [Hin|Hin].
      * rewrite <- Hin. destruct (Qmin_cases x0 a) as [->| ->]; simpl; auto.
      * right; right; exact Hin.
    + intros v [<-|[<-|Hv]].
      * eapply Qle_trans; [apply Hle; left; reflexivity|apply Q.le_min_l].
      * eapply Qle_trans; [apply Hle; left; reflexivity|apply Q.le_min_r].
      * apply Hle. right; exact Hv.
Qed.

Lemma Math_max_is_maximum (rest : list number) :
  forall x0, is_maximum (Math_max x0 rest) (x0 :: rest).
Proof.
  induction rest as [|a rest IH]; intros x0.
  - split; [left; reflexivity|].
    intros v [<-|[]]. apply Qle_refl.
  - destruct (IH (Qmax x0 a)) as [Hin Hle].
    change (Math_max x0 (a :: rest)) with (Math_max (Qmax x0 a) rest).
    split.
    + destruct Hin as [Hin|Hin].
      * rewrite <- Hin. destruct (Qmax_cases x0 a) as [->| ->]; simpl; auto.
      * right; right; exact Hin.
    + intros v [<-|[<-|Hv]].
      * eapply Qle_trans; [apply Q.le_max_l|apply Hle; left; reflexivity].
      * eapply Qle_trans; [apply Q.le_max_r|apply Hle; left; reflexivity].
      * apply Hle. right; exact Hv.
Qed.

(** *** The [reduce] of the kanban header *)

Lemma reduce_cards (cols : list KanbanColumn) :
  forall acc : nat,
    fold_left (fun total col => (total + length (cards col))%nat) cols acc
    = (acc + sum_list (map (fun col => length (cards col)) cols))%nat.
Proof.
  induction cols as [|col cols IH]; intros acc; simpl.
  - lia.
  - rewrite IH. lia.
Qed.

Section WithFormatting.

Variable Number_toString : number -> string.

Local Abbreviation renderElement := (renderElement Number_toString).
Local Abbreviation CanvasElement := (CanvasElement Number_toString).

(** C4: a pen element with at least two points is drawn in the box
    spanned by its points: left and top are the least x and y, width
    and height the differences to the greatest x and y; the path goes
    through the points moved by [(-min x, -min y)]. *)
Theorem pen_bounding_box (r : Render) :
  type (props r) = pen ->
  (2 <= length (get_points (props r)))%nat ->
  let pts := get_points (props r) in
  exists minX minY maxX maxY e,
    is_minimum minX (map px pts) /\ is_minimum minY (map py pts) /\
    is_maximum maxX (map px pts) /\ is_maximum maxY (map py pts) /\
    renderElement r = Some e /\
    style_left e = minX /\ style_top e = minY /\
    style_width e = Some (Px (maxX - minX)) /\
    style_height e = Some (Px (maxY - minY)) /\
    inner e =
      SvgPath (maxX - minX) (maxY - minY)
        ("M " +:+
         String.concat " L "
           (map (fun q => Number_toString q.1 +:+ "," +:+ Number_toString q.2)
                (translated minX minY pts)))
        (get_color (props r)) (get_strokeWidth (props r)).
Proof.
  intros Hty Hlen pts.
  unfold renderElement, CanvasElement.renderElement. rewrite Hty.
  subst pts. destruct (get_points (props r)) as [|p0 [|p1 rest]];
    [simpl in Hlen; lia | simpl in Hlen; lia |].
  eexists _, _, _, _, _.
  split; [apply (Math_min_is_minimum (map px (p1 :: rest)))|].
  split; [apply (Math_min_is_minimum (map py (p1 :: rest)))|].
  split; [apply (Math_max_is_maximum (map px (p1 :: rest)))|].
  split; [apply (Math_max_is_maximum (map py (p1 :: rest)))|].
  split; [reflexivity|].
  cbn [style_left style_top style_width style_height inner].
  repeat (split; [reflexivity|]).
  unfold path_d, translated. rewrite map_map. reflexivity.
Qed.


(** C6, amended: a kanban element with board data that is not locked
    shows in its header the sum, over the columns, of the number of
    cards; a locked one shows no badge.  The number is computed from
    the board of the props of the render, and the render committed
    after the parent passes new props has these props. *)
Theorem kanban_badge (r : Render) (data : KanbanData) :
  type (props r) = kanban ->
  kanbanData (props r) = Some data ->
  (exists e,
      renderElement r = Some e /\
      inner e =
        Board (if get_locked (props r) then None else Some (total_cards data))
              data (get_locked (props r))) /\
  (forall i, props (current (fst (step Number_toString i (NewProps (props r)))))
             = props r).
Proof.
  intros Hty Hdata. split.
  - unfold renderElement, CanvasElement.renderElement, renderKanbanBoard.
    rewrite Hty, Hdata. eexists. split; [reflexivity|].
    cbn [inner]. unfold total_cards. rewrite reduce_cards.
    destruct (get_locked (props r)); reflexivity.
  - intros i. unfold step. cbn [dispatch apply_actions fold_left].
    reflexivity.
Qed.

(** The toolbar does not depend on the shape being drawn: it is there
    exactly when the element is selected or hovered and is no kanban
    board, also over a pen stroke too short to be drawn. *)
Lemma toolbar_shown (r : Render) :
  type (props r) <> kanban ->
  (is_Some (controls (CanvasElement r)) <->
   get_isSelected (props r) || isHovered (st r) = true).
Proof.
  intros Hty. unfold CanvasElement, CanvasElement.CanvasElement. cbn [controls].
  destruct (type (props r)); try contradiction;
    destruct (get_isSelected (props r) || isHovered (st r)); cbn;
    split; intros H; try reflexivity; try discriminate;
    try (eexists; reflexivity); destruct H as [c Hc]; discriminate.
Qed.

(** C9, amended: with the optional props absent, width and height are
    100, the colour is ['#6366f1'] and the stroke width is 2.  A
    rectangle, circle, frame, sticky note or kanban board of default
    size is then drawn 100 by 100; a text element of default size is
    drawn with width and height ['auto']; a line or an arrow gives its
    root no size and draws an svg 100 wide and 8 or 24 high; a pen
    stroke takes its size from its points: its width is the greatest
    minus the least x of the points and its height the greatest minus
    the least y, whatever [width] and [height] are. *)
Theorem defaults_apply (r : Render) :
  width (props r) = None -> height (props r) = None ->
  color (props r) = None -> strokeWidth (props r) = None ->
  get_width (props r) = 100 /\ get_height (props r) = 100 /\
  get_color (props r) = "#6366f1"%string /\ get_strokeWidth (props r) = 2 /\
  forall e, renderElement r = Some e ->
    match type (props r) with
    | rectangle | circle | frame | sticky | kanban =>
        style_width e = Some (Px 100) /\ style_height e = Some (Px 100)
    | text =>
        style_width e = Some Auto /\ style_height e = Some Auto
    | line =>
        style_width e = None /\ style_height e = None /\
        inner e = SvgLine 100 8 100 "#6366f1" 2 None
    | arrow =>
        style_width e = None /\ style_height e = None /\
        exists m, inner e = SvgLine 100 24 (100 - 12) "#6366f1" 2 (Some m)
    | pen =>
        let pts := get_points (props r) in
        exists minX minY maxX maxY d,
          is_minimum minX (map px pts) /\ is_minimum minY (map py pts) /\
          is_maximum maxX (map px pts) /\ is_maximum maxY (map py pts) /\
          style_width e = Some (Px (maxX - minX)) /\
          style_height e = Some (Px (maxY - minY)) /\
          inner e = SvgPath (maxX - minX) (maxY - minY) d "#6366f1" 2
    end.
Proof.
  intros Hw Hh Hc Hs.
  assert (get_width (props r) = 100) as Ew by (unfold get_width; rewrite Hw; reflexivity).
  assert (get_height (props r) = 100) as Eh by (unfold get_height; rewrite Hh; reflexivity).
  assert (get_color (props r) = "#6366f1"%string) as Ec
    by (unfold get_color; rewrite Hc; reflexivity).
  assert (get_strokeWidth (props r) = 2) as Es
    by (unfold get_strokeWidth; rewrite Hs; reflexivity).
  repeat (split; [assumption|]).
  intros e. unfold renderElement, CanvasElement.renderElement, renderKanbanBoard.
  rewrite Ew, Eh, Ec, Es.
  destruct (type (props r)).
  9: destruct (kanbanData (props r)); [|discriminate].
  8: { destruct (get_points (props r)) as [|p0 [|p1 rest]]; try discriminate.
       intros [= <-]. cbv zeta. cbn [style_width style_height inner].
       eexists _, _, _, _, _.
       split; [apply (Math_min_is_minimum (map px (p1 :: rest)))|].
       split; [apply (Math_min_is_minimum (map py (p1 :: rest)))|].
       split; [apply (Math_max_is_maximum (map px (p1 :: rest)))|].
       split; [apply (Math_max_is_maximum (map py (p1 :: rest)))|].
       repeat split. }
  all: intros [= <-]; cbn; eauto 10.
Qed.

End WithFormatting.

(** The stroke of the spec's example: the box is (0, 0) to (10, 10) and
    the path starts at 0,0. *)
Lemma pen_bounding_box_witness :
  exists e,
    renderElement integer_toString
      {| props := with_points sample_stroke (sample pen); st := initial_state |}
    = Some e /\
    style_left e = 0 /\ style_top e = 0 /\
    style_width e = Some (Px 10) /\ style_height e = Some (Px 10) /\
    inner e = SvgPath 10 10 "M 0,0 L 10,0 L 10,10" "#6366f1" 2.
Proof.
  assert (2 <= length (get_points (with_points sample_stroke (sample pen))))%nat
    as Hlen by (vm_compute; lia).
  destruct (pen_bounding_box integer_toString
              {| props := with_points sample_stroke (sample pen);
                 st := initial_state |} eq_refl Hlen)
    as (minX & minY & maxX & maxY & e & _ & _ & _ & _ & He & _).
  exists e. split; [exact He|].
  vm_compute in He. injection He as <-.
  repeat split; reflexivity.
Defined.


(** C6 as stated fails on a locked board: it has board data and three
    cards, and its header shows no badge. *)
Lemma kanban_badge_absent_when_locked :
  let r := {| props := with_locked true (with_kanbanData sample_board (sample kanban));
              st := initial_state |} in
  type (props r) = kanban /\
  kanbanData (props r) = Some sample_board /\
  total_cards sample_board = 3%nat /\
  exists e,
    renderElement integer_toString r = Some e /\
    inner e = Board None sample_board true /\
    ~ (exists l, inner e = Board (Some (total_cards sample_board)) sample_board l).
Proof.
  cbv zeta. split; [reflexivity|]. split; [reflexivity|]. split; [reflexivity|].
  eexists. split; [reflexivity|]. split; [reflexivity|].
  intros [l Hl]. discriminate Hl.
Qed.

Lemma kanban_badge_witness :
  exists e,
    renderElement integer_toString
      {| props := with_kanbanData sample_board (sample kanban); st := initial_state |}
    = Some e /\
    inner e = Board (Some 3%nat) sample_board false.
Proof.
  destruct (kanban_badge integer_toString
              {| props := with_kanbanData sample_board (sample kanban);
                 st := initial_state |} sample_board eq_refl eq_refl)
    as [(e & He & Hi) _].
  exists e. split; [exact He|]. rewrite Hi. reflexivity.
Defined.

(** C9 as stated fails on a text element: with no width and no height
    given, it is drawn with width and height ['auto'], not 100. *)
Lemma text_default_size_is_auto :
  let r := {| props := sample text; st := initial_state |} in
  width (props r) = None /\ height (props r) = None /\
  exists e,
    renderElement integer_toString r = Some e /\
    style_width e = Some Auto /\ style_height e = Some Auto /\
    style_width e <> Some (Px 100) /\ style_height e <> Some (Px 100).
Proof.
  cbv zeta. split; [reflexivity|]. split; [reflexivity|].
  eexists. split; [reflexivity|].
  repeat split; try reflexivity; discriminate.
Qed.

Lemma defaults_apply_witness :
  get_width (sample rectangle) = 100 /\
  get_color (sample rectangle) = "#6366f1"%string /\
  exists e,
    renderElement integer_toString
      {| props := sample rectangle; st := initial_state |} = Some e /\
    style_width e = Some (Px 100) /\ style_height e = Some (Px 100).
Proof.
  destruct (defaults_apply integer_toString
              {| props := sample rectangle; st := initial_state |}
              eq_refl eq_refl eq_refl eq_refl)
    as (Hw & _ & Hc & _ & Hr).
  split; [exact Hw|]. split; [exact Hc|].
  eexists. split; [reflexivity|]. exact (Hr _ eq_refl).
Defined.

End CanvasElementRenderFacts.

(* ===================================================================== *)
(** ** Properties of the interaction of a canvas element *)
(* ===================================================================== *)

Module CanvasElementFacts.
Import CanvasElement.

(** *** State updates *)

Lemma apply_actions_cons (s : State) (fresh : nat) (a : Action) (acts : list Action) :
  apply_actions s fresh (a :: acts)
  = apply_actions (set_state (s, fresh) a).1 (set_state (s, fresh) a).2 acts.
Proof.
  unfold apply_actions. destruct a; reflexivity.
Qed.

Lemma apply_drag_neutral (acts : list Action) :
  Forall drag_neutral acts ->
  forall s fresh,
    isDragging (apply_actions s fresh acts).1 = isDragging s /\
    isResizing (apply_actions s fresh acts).1 = isResizing s /\
    dragOffset (apply_actions s fresh acts).1 = dragOffset s /\
    (apply_actions s fresh acts).2 = fresh.
Proof.
  induction 1 as [|a acts Ha _ IH]; intros s fresh.
  - repeat split.
  - rewrite apply_actions_cons.
    destruct a; try contradiction; cbn [set_state fst snd];
      match goal with
      | |- context [apply_actions ?s' ?f' acts] => exact (IH s' f')
      end.
Qed.

Lemma apply_starts_nothing (acts : list Action) :
  Forall starts_nothing acts ->
  forall s fresh,
    isDragging s = false -> isEditing s = false ->
    isDragging (apply_actions s fresh acts).1 = false /\
    isEditing (apply_actions s fresh acts).1 = false.
Proof.
  induction 1 as [|a acts Ha _ IH]; intros s fresh Hd He.
  - split; assumption.
  - rewrite apply_actions_cons.
    destruct a as [|[]|b|ox oy|[]|b|c]; try contradiction;
      cbn [set_state fst snd]; apply IH; assumption || reflexivity.
Qed.

Lemma apply_keeps_well_formed (acts : list Action) :
  forall s fresh,
    (ref (dragOffset s) < fresh)%nat ->
    (ref (dragOffset (apply_actions s fresh acts).1)
     < (apply_actions s fresh acts).2)%nat.
Proof.
  induction acts as [|a acts IH]; intros s fresh Hlt.
  - exact Hlt.
  - rewrite apply_actions_cons.
    destruct a; cbn [set_state fst snd]; apply IH; cbn; lia.
Qed.

(** *** Handlers *)

Lemma optional_call_neutral (f : option callback) (mk : callback -> Call) :
  Forall drag_neutral (optional_call f mk) /\
  Forall starts_nothing (optional_call f mk).
Proof.
  destruct f; split; repeat constructor.
Qed.

Lemma handleDoubleClick_neutral (r : Render) :
  Forall drag_neutral (handleDoubleClick r).
Proof.
  unfold handleDoubleClick.
  destruct (get_locked (props r)); [constructor|].
  destruct (type (props r)); repeat constructor.
Qed.

Lemma handleMouseMove_neutral (r : Render) (clientX clientY : number) :
  Forall drag_neutral (handleMouseMove r clientX clientY) /\
  Forall starts_nothing (handleMouseMove r clientX clientY).
Proof.
  unfold handleMouseMove.
  destruct (isDragging (st r)), (onUpdate (props r)), (get_locked (props r));
    split; repeat constructor.
Qed.

Lemma handleMouseDown_locked (r : Render) (clientX clientY : number) :
  get_locked (props r) = true -> handleMouseDown r clientX clientY = [].
Proof. unfold handleMouseDown. intros ->. reflexivity. Qed.

Lemma handleDoubleClick_locked (r : Render) :
  get_locked (props r) = true -> handleDoubleClick r = [].
Proof. unfold handleDoubleClick. intros ->. reflexivity. Qed.

(** *** Steps *)

Lemma commit_same (i : Instance) :
  commit i {| props := props (current i); st := st (current i) |} (next_ref i) = i.
Proof.
  destruct i as [[p s] l n]. unfold commit. cbn [current listener next_ref props st].
  destruct (decide (deps {| props := p; st := s |} = deps {| props := p; st := s |}));
    [reflexivity | contradiction].
Qed.

Section WithFormatting.

Variable Number_toString : number -> string.

Local Abbreviation renderElement := (renderElement Number_toString).
Local Abbreviation CanvasElement := (CanvasElement Number_toString).
Local Abbreviation dispatch := (dispatch Number_toString).
Local Abbreviation step := (step Number_toString).
Local Abbreviation run := (run Number_toString).
Local Abbreviation reachable := (reachable Number_toString).

Lemma step_unfold (i : Instance) (ev : Event) :
  step i ev =
  (commit i
     {| props := match ev with
                 | NewProps p => p
                 | _ => props (current i)
                 end;
        st := (apply_actions (st (current i)) (next_ref i) (dispatch i ev)).1 |}
     (apply_actions (st (current i)) (next_ref i) (dispatch i ev)).2,
   calls_of (dispatch i ev)).
Proof.
  unfold step, CanvasElement.step.
  destruct (apply_actions (st (current i)) (next_ref i) _). reflexivity.
Qed.

Lemma step_no_actions (i : Instance) (ev : Event) :
  dispatch i ev = [] ->
  match ev with NewProps _ => False | _ => True end ->
  step i ev = (i, []).
Proof.
  intros Hd Hev. rewrite step_unfold, Hd. cbn [apply_actions fold_left fst snd calls_of omap].
  destruct ev; try contradiction; rewrite commit_same; reflexivity.
Qed.

Lemma run_cons (i : Instance) (ev : Event) (evs : list Event) :
  (run i (ev :: evs)).1 = (run (step i ev).1 evs).1.
Proof.
  cbn [CanvasElement.run]. destruct (CanvasElement.step _ i ev) as [i' out].
  cbn [fst]. destruct (CanvasElement.run _ i' evs) as [i'' out']. reflexivity.
Qed.

Lemma run_app (evs1 evs2 : list Event) :
  forall i, (run i (evs1 ++ evs2)).1 = (run (run i evs1).1 evs2).1.
Proof.
  induction evs1 as [|ev evs1 IH]; intros i.
  - reflexivity.
  - rewrite <- app_comm_cons, !run_cons. apply IH.
Qed.

Lemma dispatch_drag_neutral (i : Instance) (ev : Event) :
  continues_drag ev -> Forall drag_neutral (dispatch i ev).
Proof.
  intros Hev. unfold dispatch, CanvasElement.dispatch.
  destruct ev; try contradiction; repeat case_match;
    solve [ apply handleDoubleClick_neutral
          | apply handleMouseMove_neutral
          | apply optional_call_neutral
          | repeat constructor ].
Qed.

Lemma dispatch_locked (i : Instance) (ev : Event) :
  get_locked (props (current i)) = true -> Forall starts_nothing (dispatch i ev).
Proof.
  intros Hl. unfold dispatch, CanvasElement.dispatch.
  destruct ev; cbv zeta; rewrite ?Hl; repeat case_match;
    rewrite ?(handleMouseDown_locked _ _ _ Hl), ?(handleDoubleClick_locked _ Hl);
    solve [ apply handleMouseMove_neutral
          | apply optional_call_neutral
          | repeat constructor
          | discriminate ].
Qed.

Lemma step_keeps_well_formed (i : Instance) (ev : Event) :
  well_formed i -> well_formed (step i ev).1.
Proof.
  unfold well_formed. intros Hwf. rewrite step_unfold.
  cbn [fst commit current next_ref st].
  apply apply_keeps_well_formed. exact Hwf.
Qed.

Lemma reachable_well_formed (i : Instance) : reachable i -> well_formed i.
Proof.
  induction 1 as [p|i ev _ IH].
  - unfold well_formed. cbn. lia.
  - apply step_keeps_well_formed. exact IH.
Qed.

(** An event that continues the drag leaves the registered listeners,
    the dragging flag and the offset untouched: no dependency of the
    effect changes, so the effect does not run again. *)
Lemma step_continues_drag (i : Instance) (ev : Event) :
  continues_drag ev ->
  listener (step i ev).1 = listener i /\
  isDragging (st (current (step i ev).1)) = isDragging (st (current i)).
Proof.
  intros Hev. rewrite step_unfold. cbn [fst commit current listener st].
  destruct (apply_drag_neutral _ (dispatch_drag_neutral i ev Hev)
              (st (current i)) (next_ref i)) as (E1 & E2 & E3 & _).
  split; [|exact E1].
  unfold deps. cbn [st]. rewrite E1, E2, E3.
  destruct (decide _) as [_|Hne]; [reflexivity | contradiction].
Qed.

Lemma run_continues_drag (evs : list Event) :
  Forall continues_drag evs ->
  forall i,
    listener (run i evs).1 = listener i /\
    isDragging (st (current (run i evs).1)) = isDragging (st (current i)).
Proof.
  induction 1 as [|ev evs Hev _ IH]; intros i.
  - split; reflexivity.
  - rewrite run_cons.
    destruct (IH (step i ev).1) as [-> ->].
    apply step_continues_drag. exact Hev.
Qed.

Lemma run_keeps_locked (evs : list Event) :
  Forall keeps_locked evs ->
  forall i,
    get_locked (props (current i)) = true ->
    get_locked (props (current (run i evs).1)) = true.
Proof.
  induction 1 as [|ev evs Hev _ IH]; intros i Hl.
  - exact Hl.
  - rewrite run_cons. apply IH. rewrite step_unfold.
    cbn [fst commit current props]. destruct ev; assumption.
Qed.

(** A pointer-down on a drawn, unlocked shape: the new render is dragging
    with the offset between the pointer and the top-left corner, held in
    a fresh object; so the effect runs and registers the handlers of this
    very render on [document]. *)
Lemma mouse_down_starts_drag (i : Instance) (clientX clientY : number) :
  well_formed i ->
  get_locked (props (current i)) = false ->
  is_Some (renderElement (current i)) ->
  exists r1,
    current (step i (MouseDown clientX clientY)).1 = r1 /\
    listener (step i (MouseDown clientX clientY)).1 = Some r1 /\
    props r1 = props (current i) /\
    isDragging (st r1) = true /\
    off_x (dragOffset (st r1)) = clientX - x (props (current i)) /\
    off_y (dragOffset (st r1)) = clientY - y (props (current i)).
Proof.
  intros Hwf Hl [e He]. rewrite step_unfold.
  unfold dispatch, CanvasElement.dispatch.
  cbn [CanvasElement.CanvasElement element]. rewrite He.
  unfold handleMouseDown. rewrite Hl.
  eexists. split; [reflexivity|].
  cbn [fst commit listener].
  destruct (onSelect (props (current i))); cbn -[Qminus];
    (destruct (decide _) as [Heq|_];
     [ unfold well_formed in Hwf; inversion Heq; lia
     | repeat split ]).
Qed.

(** The registered [handleMouseMove] of a dragging render asks for the
    position of the pointer minus the captured offset. *)
Lemma handleMouseMove_dragging (r : Render) (clientX clientY : number) :
  isDragging (st r) = true ->
  get_locked (props r) = false ->
  calls_of (handleMouseMove r clientX clientY) =
  match onUpdate (props r) with
  | Some f =>
      [ call_onUpdate f (id (props r))
          (position_update (clientX - off_x (dragOffset (st r)))
                           (clientY - off_y (dragOffset (st r)))) ]
  | None => []
  end.
Proof.
  intros Hd Hl. unfold handleMouseMove. rewrite Hd, Hl.
  destruct (onUpdate (props r)); reflexivity.
Qed.

(** Run in a render in which [locked] is true, the same handler asks for
    nothing: what keeps a drag alive under a lock is the age of the
    registered closure, not the test in the handler. *)
Lemma handleMouseMove_locked (r : Render) (clientX clientY : number) :
  get_locked (props r) = true -> handleMouseMove r clientX clientY = [].
Proof.
  intros Hl. unfold handleMouseMove. rewrite Hl.
  destruct (isDragging (st r)), (onUpdate (props r)); reflexivity.
Qed.

(** What the drag looks like after a pointer-down and any events that
    continue it. *)
Lemma drag_in_progress
    (i : Instance) (clientX clientY : number) (evs : list Event) :
  reachable i ->
  get_locked (props (current i)) = false ->
  is_Some (renderElement (current i)) ->
  Forall continues_drag evs ->
  let i2 := (run (step i (MouseDown clientX clientY)).1 evs).1 in
  isDragging (st (current i2)) = true /\
  forall clientX2 clientY2,
    (step i2 (DocumentMouseMove clientX2 clientY2)).2 =
    match onUpdate (props (current i)) with
    | Some f =>
        [ call_onUpdate f (id (props (current i)))
            (position_update (clientX2 - (clientX - x (props (current i))))
                             (clientY2 - (clientY - y (props (current i))))) ]
    | None => []
    end.
Proof.
  intros Hr Hl He Hevs i2.
  destruct (mouse_down_starts_drag i clientX clientY
              (reachable_well_formed i Hr) Hl He)
    as (r1 & Hcur & Hlis & Hp & Hd & Hx & Hy).
  destruct (run_continues_drag evs Hevs (step i (MouseDown clientX clientY)).1)
    as [Hlis2 Hd2].
  fold i2 in Hlis2, Hd2. rewrite Hlis in Hlis2. rewrite Hcur in Hd2.
  split; [congruence|].
  intros clientX2 clientY2. rewrite step_unfold. cbn [snd].
  unfold dispatch, CanvasElement.dispatch. rewrite Hlis2.
  rewrite handleMouseMove_dragging by (rewrite ?Hp; assumption).
  rewrite Hp, Hx, Hy. reflexivity.
Qed.

(** C1: on an unlocked shape with top-left corner [(x, y)], a
    pointer-down at [(clientX, clientY)] enters Dragging and captures the
    offset [(clientX - x, clientY - y)]; from then on, whatever happens
    short of another pointer-down or a pointer-up, a pointer-move to
    [(clientX2, clientY2)] calls [onUpdate] (when the prop was given)
    with exactly the position
    [(clientX2 - (clientX - x), clientY2 - (clientY - y))]. *)
Theorem drag_requests_position
    (i : Instance) (clientX clientY : number) (evs : list Event)
    (clientX2 clientY2 : number) :
  reachable i ->
  get_locked (props (current i)) = false ->
  is_Some (renderElement (current i)) ->
  Forall continues_drag evs ->
  let p := props (current i) in
  let i1 := (step i (MouseDown clientX clientY)).1 in
  let i2 := (run i1 evs).1 in
  isDragging (st (current i1)) = true /\
  off_x (dragOffset (st (current i1))) = clientX - x p /\
  off_y (dragOffset (st (current i1))) = clientY - y p /\
  isDragging (st (current i2)) = true /\
  (step i2 (DocumentMouseMove clientX2 clientY2)).2 =
  match onUpdate p with
  | Some f =>
      [ call_onUpdate f (id p)
          (position_update (clientX2 - (clientX - x p))
                           (clientY2 - (clientY - y p))) ]
  | None => []
  end.
Proof.
  intros Hr Hl He Hevs p i1 i2.
  destruct (mouse_down_starts_drag i clientX clientY
              (reachable_well_formed i Hr) Hl He)
    as (r1 & Hcur & _ & _ & Hd & Hx & Hy).
  fold i1 in Hcur. rewrite Hcur.
  destruct (drag_in_progress i clientX clientY evs Hr Hl He Hevs) as [Hd2 Hmove].
  repeat split; try assumption. apply Hmove.
Qed.

(** C2: when the parent locks the element in the middle of a drag, the
    drag goes on: the component is still Dragging, and a pointer-move
    still calls [onUpdate] with the pointer position minus the captured
    offset, although [locked] is now true.  The listeners on [document]
    are those of the render that started the drag, in which [locked] was
    false, and no dependency of the effect has changed since.  A
    pointer-up ends it: Dragging is left, the listeners are removed, and
    a pointer-move no longer calls anything. *)
Theorem lock_during_drag_does_not_cancel
    (i : Instance) (clientX clientY : number) (evs1 : list Event)
    (p_locked : CanvasElementProps) (evs2 : list Event)
    (clientX2 clientY2 : number) (f : callback) :
  reachable i ->
  get_locked (props (current i)) = false ->
  is_Some (renderElement (current i)) ->
  onUpdate (props (current i)) = Some f ->
  Forall continues_drag evs1 ->
  get_locked p_locked = true ->
  Forall continues_drag evs2 ->
  Forall keeps_locked evs2 ->
  let p := props (current i) in
  let i2 := (run i (MouseDown clientX clientY :: evs1 ++ NewProps p_locked :: evs2)).1 in
  let i3 := (step i2 DocumentMouseUp).1 in
  get_locked (props (current i2)) = true /\
  isDragging (st (current i2)) = true /\
  (step i2 (DocumentMouseMove clientX2 clientY2)).2 =
    [ call_onUpdate f (id p)
        (position_update (clientX2 - (clientX - x p))
                         (clientY2 - (clientY - y p))) ] /\
  isDragging (st (current i3)) = false /\
  listener i3 = None /\
  (step i3 (DocumentMouseMove clientX2 clientY2)).2 = [].
Proof.
  intros Hr Hl He Hf Hevs1 Hpl Hevs2 Hk2 p i2 i3.
  assert (Forall continues_drag (evs1 ++ NewProps p_locked :: evs2)) as Hevs.
  { apply Forall_app. split; [exact Hevs1|]. constructor; [exact I|exact Hevs2]. }
  destruct (drag_in_progress i clientX clientY _ Hr Hl He Hevs) as [Hd Hmove].
  rewrite <- run_cons in Hd, Hmove. fold i2 in Hd, Hmove.
  assert (get_locked (props (current i2)) = true) as Hlocked.
  { unfold i2. rewrite run_cons, run_app, run_cons.
    apply run_keeps_locked; [exact Hk2|].
    rewrite step_unfold. cbn [fst commit current props]. exact Hpl. }
  assert (exists r1, listener i2 = Some r1) as [r1 Hlis].
  { destruct (mouse_down_starts_drag i clientX clientY
                (reachable_well_formed i Hr) Hl He) as (r1 & _ & Hlis & _).
    exists r1. unfold i2. rewrite run_cons.
    destruct (run_continues_drag _ Hevs (step i (MouseDown clientX clientY)).1)
      as [-> _]. exact Hlis. }
  assert (isDragging (st (current i3)) = false /\ listener i3 = None) as [Hd3 Hlis3].
  { unfold i3. rewrite step_unfold.
    unfold dispatch, CanvasElement.dispatch. rewrite Hlis.
    cbn [fst commit current listener st handleMouseUp apply_actions fold_left
         set_state isDragging].
    split; [reflexivity|].
    destruct (decide _) as [Heq|_]; [|reflexivity].
    unfold deps in Heq. cbn [st isDragging] in Heq. rewrite Hd in Heq.
    inversion Heq. }
  repeat split; try assumption.
  - rewrite Hmove, Hf. reflexivity.
  - rewrite step_unfold. cbn [snd].
    unfold dispatch, CanvasElement.dispatch. rewrite Hlis3. reflexivity.
Qed.

(** C3: an element that is locked and idle stays idle for as long as it
    stays locked.  A pointer-down, a double-click and a click on the text
    do nothing at all; and after any events during which the parent
    keeps [locked] true, the component is neither Dragging nor Editing. *)
Theorem locked_idle_stays_idle (i : Instance) (evs : list Event) :
  get_locked (props (current i)) = true ->
  isDragging (st (current i)) = false ->
  isEditing (st (current i)) = false ->
  Forall keeps_locked evs ->
  (forall clientX clientY, step i (MouseDown clientX clientY) = (i, [])) /\
  step i DoubleClick = (i, []) /\
  step i ContentClick = (i, []) /\
  forall evs1 evs2, evs = evs1 ++ evs2 ->
    let i' := (run i evs1).1 in
    get_locked (props (current i')) = true /\
    isDragging (st (current i')) = false /\
    isEditing (st (current i')) = false.
Proof.
  intros Hl Hd He Hevs.
  split; [|split; [|split]].
  - intros clientX clientY. apply step_no_actions; [|exact I].
    unfold dispatch, CanvasElement.dispatch.
    destruct (element _); [|reflexivity].
    apply handleMouseDown_locked. exact Hl.
  - apply step_no_actions; [|exact I].
    unfold dispatch, CanvasElement.dispatch.
    destruct (element _) as [e|]; [|reflexivity].
    destruct (onDoubleClick e); [|reflexivity].
    apply handleDoubleClick_locked. exact Hl.
  - apply step_no_actions; [|exact I].
    unfold dispatch, CanvasElement.dispatch. rewrite Hl.
    repeat case_match; first [reflexivity | discriminate].
  - intros evs1 evs2 ->. apply Forall_app in Hevs as [Hevs1 _].
    clear evs2. revert i Hl Hd He.
    induction Hevs1 as [|ev evs1 Hev _ IH]; intros i Hl Hd He i'.
    + repeat split; assumption.
    + subst i'. rewrite run_cons. apply IH.
      * rewrite step_unfold. cbn [fst commit current props].
        destruct ev; assumption.
      * rewrite step_unfold. cbn [fst commit current st].
        apply (apply_starts_nothing _ (dispatch_locked i ev Hl)); assumption.
      * rewrite step_unfold. cbn [fst commit current st].
        apply (apply_starts_nothing _ (dispatch_locked i ev Hl)); assumption.
Qed.

(** C10: on a sticky note that is not locked and not being edited, one
    click on the text enters Editing, and the next render shows the
    textarea; on a locked sticky note the click does nothing; on every
    other kind, text included, a click on the content does nothing. *)
Theorem sticky_click_enters_editing (i : Instance) :
  let p := props (current i) in
  (type p = sticky -> get_locked p = false -> isEditing (st (current i)) = false ->
   let i' := (step i ContentClick).1 in
   isEditing (st (current i')) = true /\
   props (current i') = p /\
   exists e,
     renderElement (current i') = Some e /\
     inner e = Textarea (get_content p) (Some "Type your note..."%string)) /\
  (type p = sticky -> get_locked p = true -> step i ContentClick = (i, [])) /\
  (type p <> sticky -> step i ContentClick = (i, [])).
Proof.
  intros p. split; [|split].
  - intros Hty Hl He i'.
    assert (dispatch i ContentClick = [setIsEditing true]) as Hdis.
    { unfold dispatch, CanvasElement.dispatch.
      cbn [CanvasElement.CanvasElement element].
      unfold renderElement, CanvasElement.renderElement.
      fold p. rewrite Hty, He, Hl. reflexivity. }
    subst i'. rewrite step_unfold, Hdis.
    cbn [fst commit current st props apply_actions fold_left set_state isEditing].
    split; [reflexivity|]. split; [reflexivity|].
    unfold renderElement, CanvasElement.renderElement. cbn [props st isEditing].
    fold p. rewrite Hty. eexists. split; reflexivity.
  - intros Hty Hl. apply step_no_actions; [|exact I].
    unfold dispatch, CanvasElement.dispatch. fold p. rewrite Hl.
    repeat case_match; first [reflexivity | discriminate].
  - intros Hty. apply step_no_actions; [|exact I].
    unfold dispatch, CanvasElement.dispatch.
    cbn [CanvasElement.CanvasElement element].
    unfold renderElement, CanvasElement.renderElement, renderKanbanBoard.
    fold p. destruct (type p); try contradiction;
      repeat case_match; simplify_eq/=; reflexivity.
Qed.

End WithFormatting.

(** A rectangle at (40, 30) is grabbed at (45, 36); the pointer then
    enters the shape and moves; a last move to (60, 70) asks for the
    position (55, 64). *)
Lemma drag_requests_position_witness :
  let i2 := (run integer_toString
               (step integer_toString (mount (sample rectangle)) (MouseDown 45 36)).1
               [MouseEnter; DocumentMouseMove 50 50]).1 in
  isDragging (st (current i2)) = true /\
  (step integer_toString i2 (DocumentMouseMove 60 70)).2
  = [call_onUpdate 1%nat "e1" (position_update 55 64)].
Proof.
  assert (Forall continues_drag [MouseEnter; DocumentMouseMove 50 50]) as Hevs
    by (repeat constructor).
  assert (is_Some (renderElement integer_toString (current (mount (sample rectangle)))))
    as He by (eexists; reflexivity).
  exact (proj2 (proj2 (proj2
           (drag_requests_position integer_toString (mount (sample rectangle))
              45 36 [MouseEnter; DocumentMouseMove 50 50] 60 70
              (reachable_mount _ _) eq_refl He Hevs)))).
Defined.

(** The same drag, with the element locked by the parent half-way. *)
Lemma lock_during_drag_does_not_cancel_witness :
  let i2 := (run integer_toString (mount (sample rectangle))
               [ MouseDown 45 36; DocumentMouseMove 50 50;
                 NewProps (with_locked true (sample rectangle)); MouseLeave ]).1 in
  get_locked (props (current i2)) = true /\
  isDragging (st (current i2)) = true /\
  (step integer_toString i2 (DocumentMouseMove 60 70)).2
  = [call_onUpdate 1%nat "e1" (position_update 55 64)].
Proof.
  assert (Forall continues_drag [DocumentMouseMove 50 50]) as Hevs1
    by (repeat constructor).
  assert (Forall continues_drag [MouseLeave]) as Hevs2 by (repeat constructor).
  assert (Forall keeps_locked [MouseLeave]) as Hk2 by (repeat constructor).
  assert (is_Some (renderElement integer_toString (current (mount (sample rectangle)))))
    as He by (eexists; reflexivity).
  destruct (lock_during_drag_does_not_cancel integer_toString
              (mount (sample rectangle)) 45 36 [DocumentMouseMove 50 50]
              (with_locked true (sample rectangle)) [MouseLeave] 60 70 1%nat
              (reachable_mount _ _) eq_refl He eq_refl Hevs1 eq_refl Hevs2 Hk2)
    as (H1 & H2 & H3 & _).
  repeat split; assumption.
Defined.

Lemma locked_idle_stays_idle_witness :
  let i' := (run integer_toString (mount (with_locked true (sample sticky)))
               [ MouseDown 1 2; DoubleClick; ContentClick;
                 NewProps (with_locked true (sample text)); DoubleClick ]).1 in
  isDragging (st (current i')) = false /\ isEditing (st (current i')) = false.
Proof.
  assert (Forall keeps_locked
            [ MouseDown 1 2; DoubleClick; ContentClick;
              NewProps (with_locked true (sample text)); DoubleClick ]) as Hevs
    by (repeat constructor).
  destruct (locked_idle_stays_idle integer_toString
              (mount (with_locked true (sample sticky))) _
              eq_refl eq_refl eq_refl Hevs) as (_ & _ & _ & H).
  exact (proj2 (H [ MouseDown 1 2; DoubleClick; ContentClick;
                    NewProps (with_locked true (sample text)); DoubleClick ]
                  [] eq_refl)).
Defined.

Lemma sticky_click_enters_editing_witness :
  isEditing (st (current (step integer_toString (mount (sample sticky)) ContentClick).1))
  = true /\
  step integer_toString (mount (sample text)) ContentClick = (mount (sample text), []).
Proof.
  split.
  - destruct (sticky_click_enters_editing integer_toString (mount (sample sticky)))
      as (H & _ & _).
    exact (proj1 (H eq_refl eq_refl eq_refl)).
  - destruct (sticky_click_enters_editing integer_toString (mount (sample text)))
      as (_ & _ & H).
    apply H. discriminate.
Defined.

End CanvasElementFacts.

(* ===================================================================== *)
(** ** The lifecycle of the document listeners *)
(* ===================================================================== *)

Module CanvasElementLifecycle.
Import CanvasElement CanvasElementFacts.

Lemma apply_state_free (acts : list Action) :
  Forall state_free acts ->
  forall s fresh, apply_actions s fresh acts = (s, fresh).
Proof.
  induction 1 as [|a acts Ha _ IH]; intros s fresh.
  - reflexivity.
  - rewrite apply_actions_cons.
    destruct a; try contradiction; cbn [set_state fst snd]; apply IH.
Qed.

Lemma apply_never_resizes (acts : list Action) :
  Forall never_resizes acts ->
  forall s fresh,
    isResizing s = false ->
    isResizing (apply_actions s fresh acts).1 = false.
Proof.
  induction 1 as [|a acts Ha _ IH]; intros s fresh Hs.
  - exact Hs.
  - rewrite apply_actions_cons.
    destruct a as [|b|[]|ox oy|b|b|c]; try contradiction;
      cbn [set_state fst snd]; apply IH; assumption || reflexivity.
Qed.

(** After any handler, the offset object is the one from before, or one
    allocated by the handler. *)
Lemma apply_offset_kept_or_fresh (acts : list Action) :
  forall s fresh,
    dragOffset (apply_actions s fresh acts).1 = dragOffset s \/
    (fresh <= ref (dragOffset (apply_actions s fresh acts).1))%nat.
Proof.
  induction acts as [|a acts IH]; intros s fresh.
  - left. reflexivity.
  - rewrite apply_actions_cons.
    destruct a; cbn [set_state fst snd];
      match goal with
      | |- context [apply_actions ?s' ?f' acts] =>
          destruct (IH s' f') as [E|E]; cbn [dragOffset ref] in E
      end;
      first [ left; exact E | right; rewrite ?E; cbn [ref]; lia ].
Qed.

Lemma drag_neutral_never_resizes (acts : list Action) :
  Forall drag_neutral acts -> Forall never_resizes acts.
Proof.
  intros H. eapply Forall_impl; [exact H|].
  intros a Ha. destruct a as [|b|[]|ox oy|b|b|c];
    solve [exact I | contradiction].
Qed.

Lemma handleMouseDown_never_resizes (r : Render) (clientX clientY : number) :
  Forall never_resizes (handleMouseDown r clientX clientY).
Proof.
  unfold handleMouseDown. destruct (get_locked (props r)); [constructor|].
  destruct (onSelect (props r)); repeat constructor.
Qed.

Section WithFormatting.

Variable Number_toString : number -> string.

Local Abbreviation renderElement := (renderElement Number_toString).
Local Abbreviation CanvasElement := (CanvasElement Number_toString).
Local Abbreviation dispatch := (dispatch Number_toString).
Local Abbreviation step := (step Number_toString).
Local Abbreviation run := (run Number_toString).
Local Abbreviation reachable := (reachable Number_toString).

Lemma dispatch_never_resizes (i : Instance) (ev : Event) :
  Forall never_resizes (dispatch i ev).
Proof.
  destruct ev;
    try (apply drag_neutral_never_resizes;
         apply (dispatch_drag_neutral Number_toString); exact I).
  - unfold dispatch, CanvasElement.dispatch.
    destruct (element _); [apply handleMouseDown_never_resizes|constructor].
  - unfold dispatch, CanvasElement.dispatch.
    destruct (listener i); repeat constructor.
Qed.

(** The effect registers listeners only for a render that a pointer-down
    on an unlocked shape has just produced. *)
Lemma drag_start_unlocked (i : Instance) (ev : Event) :
  let s' := (apply_actions (st (current i)) (next_ref i) (dispatch i ev)).1 in
  let p' := match ev with
            | NewProps p => p
            | _ => props (current i)
            end in
  isDragging s' = true ->
  deps {| props := p'; st := s' |} <> deps (current i) ->
  get_locked p' = false.
Proof.
  intros s' p' Hd Hne.
  assert (continues_drag ev -> False) as Hstop.
  { intros Hc.
    destruct (apply_drag_neutral _ (dispatch_drag_neutral Number_toString i ev Hc)
                (st (current i)) (next_ref i)) as (E1 & E2 & E3 & _).
    apply Hne. unfold deps. cbn [st]. subst s'. rewrite E1, E2, E3. reflexivity. }
  destruct ev; try (exfalso; apply Hstop; exact I); subst s' p'.
  - unfold dispatch, CanvasElement.dispatch in Hd, Hne.
    destruct (element _).
    + unfold handleMouseDown in Hd, Hne.
      destruct (get_locked (props (current i))) eqn:Hl; [|reflexivity].
      exfalso. apply Hne. reflexivity.
    + exfalso. apply Hne. reflexivity.
  - unfold dispatch, CanvasElement.dispatch in Hd, Hne.
    destruct (listener i).
    + cbn in Hd. discriminate.
    + exfalso. apply Hne. reflexivity.
Qed.

Lemma step_keeps_invariant (i : Instance) (ev : Event) :
  lifecycle_invariant i -> lifecycle_invariant (step i ev).1.
Proof.
  intros (Hwf & Hres & Hlis).
  pose proof (drag_start_unlocked i ev) as Hstart. cbv zeta in Hstart.
  rewrite step_unfold. unfold lifecycle_invariant.
  cbn [fst commit current listener next_ref st].
  pose proof (apply_keeps_well_formed (dispatch i ev) _ _ Hwf) as Hwf'.
  pose proof (apply_never_resizes _ (dispatch_never_resizes i ev) _ (next_ref i) Hres)
    as Hres'.
  pose proof (apply_offset_kept_or_fresh (dispatch i ev) (st (current i)) (next_ref i))
    as Hoff.
  destruct (apply_actions (st (current i)) (next_ref i) (dispatch i ev))
    as [s' fresh'] eqn:Happ.
  cbn [fst snd] in *.
  split; [exact Hwf'|]. split; [exact Hres'|].
  destruct (decide _) as [Heq|Hne].
  - unfold deps in Heq. cbn [st] in Heq. injection Heq as Ed _ Eref.
    assert (dragOffset s' = dragOffset (st (current i))) as Eoff.
    { destruct Hoff as [E|E]; [exact E|]. unfold well_formed in Hwf. lia. }
    destruct (listener i) as [r0|].
    + destruct Hlis as (H1 & H2 & H3 & H4). rewrite Ed, Eoff. auto.
    + rewrite Ed. exact Hlis.
  - unfold effect. cbn [st]. rewrite Hres'.
    destruct (isDragging s') eqn:Hd; cbn [orb].
    + cbn [props st]. repeat split; try assumption.
      apply Hstart; [reflexivity|exact Hne].
    + reflexivity.
Qed.

Lemma reachable_invariant (i : Instance) : reachable i -> lifecycle_invariant i.
Proof.
  induction 1 as [p|i ev _ IH].
  - unfold lifecycle_invariant, well_formed. cbn. repeat split. lia.
  - apply step_keeps_invariant. exact IH.
Qed.

(** A handler that sets no state leaves the mounted component as it
    is; only its calls are seen. *)
Lemma step_state_free (i : Instance) (ev : Event) :
  Forall state_free (dispatch i ev) ->
  match ev with NewProps _ => False | _ => True end ->
  step i ev = (i, calls_of (dispatch i ev)).
Proof.
  intros Hfree Hev. rewrite step_unfold, (apply_state_free _ Hfree).
  cbn [fst snd]. destruct ev; try contradiction; rewrite commit_same; reflexivity.
Qed.

Lemma optional_call_state_free (f : option callback) (mk : callback -> Call) :
  Forall state_free (optional_call f mk).
Proof. destruct f; repeat constructor. Qed.

Lemma calls_of_optional_call (f : option callback) (mk : callback -> Call) :
  calls_of (optional_call f mk) =
  match f with
  | Some g => [mk g]
  | None => []
  end.
Proof. destruct f; reflexivity. Qed.

Lemma handleMouseMove_state_free (r : Render) (clientX clientY : number) :
  Forall state_free (handleMouseMove r clientX clientY).
Proof.
  unfold handleMouseMove.
  destruct (isDragging (st r)), (onUpdate (props r)), (get_locked (props r));
    repeat constructor.
Qed.

(** While a text element or a sticky note is being edited, its root
    holds the textarea, whose value is the [content] prop. *)
Lemma editing_surface (r : Render) :
  type (props r) = text \/ type (props r) = sticky ->
  isEditing (st r) = true ->
  exists placeholder,
    inner <$> renderElement r = Some (Textarea (get_content (props r)) placeholder).
Proof.
  intros Hty He. unfold renderElement, CanvasElement.renderElement.
  destruct Hty as [-> | ->]; rewrite He; eexists; reflexivity.
Qed.

(** X1: the [mousemove] and [mouseup] listeners are on [document]
    exactly while the component is Dragging. *)
Theorem listeners_exactly_while_dragging (i : Instance) :
  reachable i ->
  (is_Some (listener i) <-> isDragging (st (current i)) = true).
Proof.
  intros Hr. destruct (reachable_invariant i Hr) as (_ & _ & Hlis).
  destruct (listener i) as [r0|].
  - destruct Hlis as (Hd & _). split; [intros _; exact Hd|intros _; eexists; reflexivity].
  - rewrite Hlis. split; [intros [r0 Hr0]; discriminate|discriminate].
Qed.

(** X2: the component is never Resizing: no handler calls
    [setIsResizing(true)]. *)
Theorem never_resizing (i : Instance) :
  reachable i -> isResizing (st (current i)) = false.
Proof.
  intros Hr. exact (proj1 (proj2 (reachable_invariant i Hr))).
Qed.

(** X3: a pointer-up always leaves the component not Dragging and with
    no listener on [document], and calls nothing; outside a drag it
    changes nothing at all. *)
Theorem pointer_up_ends_drag (i : Instance) :
  reachable i ->
  isDragging (st (current (step i DocumentMouseUp).1)) = false /\
  listener (step i DocumentMouseUp).1 = None /\
  (step i DocumentMouseUp).2 = [] /\
  (isDragging (st (current i)) = false -> step i DocumentMouseUp = (i, [])).
Proof.
  intros Hr. destruct (reachable_invariant i Hr) as (_ & Hres & Hlis).
  destruct (listener i) as [r0|] eqn:Hl.
  - destruct Hlis as (Hd & _).
    rewrite step_unfold. unfold dispatch, CanvasElement.dispatch. rewrite Hl.
    cbn [fst snd commit current listener st handleMouseUp apply_actions fold_left
         set_state isDragging calls_of omap].
    split; [reflexivity|]. split; [|split; [reflexivity|]].
    + destruct (decide _) as [Heq|_]; [|reflexivity].
      unfold deps in Heq. cbn [st isDragging] in Heq. rewrite Hd in Heq.
      inversion Heq.
    + rewrite Hd. discriminate.
  - assert (step i DocumentMouseUp = (i, [])) as ->.
    { apply step_no_actions; [|exact I].
      unfold dispatch, CanvasElement.dispatch. rewrite Hl. reflexivity. }
    cbn [fst snd]. rewrite Hl. auto.
Qed.

(** X4: a pointer-move never changes the component, and outside a drag
    it calls nothing. *)
Theorem pointer_move_changes_nothing
    (i : Instance) (clientX clientY : number) :
  (step i (DocumentMouseMove clientX clientY)).1 = i /\
  (reachable i -> isDragging (st (current i)) = false ->
   step i (DocumentMouseMove clientX clientY) = (i, [])).
Proof.
  assert (Forall state_free (dispatch i (DocumentMouseMove clientX clientY))) as Hfree.
  { unfold dispatch, CanvasElement.dispatch.
    destruct (listener i); [apply handleMouseMove_state_free|constructor]. }
  split.
  - rewrite (step_state_free _ _ Hfree I). reflexivity.
  - intros Hr Hd. destruct (reachable_invariant i Hr) as (_ & _ & Hlis).
    apply step_no_actions; [|exact I].
    unfold dispatch, CanvasElement.dispatch.
    destruct (listener i) as [r0|]; [|reflexivity].
    destruct Hlis as (Hd' & _). congruence.
Qed.

(** X5: while Dragging, every pointer-move reaches a handler whose
    tests [isDragging] and [!locked] succeed: it calls the [onUpdate]
    of the render that started the drag, when there is one, with the
    pointer position minus the offset now in state. *)
Theorem dragging_move_always_requests
    (i : Instance) (clientX clientY : number) :
  reachable i ->
  isDragging (st (current i)) = true ->
  exists r0,
    listener i = Some r0 /\
    (step i (DocumentMouseMove clientX clientY)).2 =
    match onUpdate (props r0) with
    | Some f =>
        [ call_onUpdate f (id (props r0))
            (position_update
               (clientX - off_x (dragOffset (st (current i))))
               (clientY - off_y (dragOffset (st (current i))))) ]
    | None => []
    end.
Proof.
  intros Hr Hd. destruct (reachable_invariant i Hr) as (_ & _ & Hlis).
  destruct (listener i) as [r0|] eqn:Hl; [|congruence].
  destruct Hlis as (_ & Hd0 & Hl0 & Hoff).
  exists r0. split; [reflexivity|].
  rewrite step_unfold. cbn [snd]. unfold dispatch, CanvasElement.dispatch.
  rewrite Hl, (handleMouseMove_dragging r0 _ _ Hd0 Hl0), Hoff. reflexivity.
Qed.

(** X6: a pointer-down on a drawn, unlocked shape calls [onSelect] once
    with the element's id (when the prop is given) and nothing else,
    enters Dragging, registers the listeners of the new render, and
    leaves Editing and the hover flag as they were. *)
Theorem pointer_down_selects_and_starts_drag
    (i : Instance) (clientX clientY : number) :
  reachable i ->
  get_locked (props (current i)) = false ->
  is_Some (renderElement (current i)) ->
  let i' := (step i (MouseDown clientX clientY)).1 in
  (step i (MouseDown clientX clientY)).2 =
    match onSelect (props (current i)) with
    | Some g => [call_onSelect g (id (props (current i)))]
    | None => []
    end /\
  isDragging (st (current i')) = true /\
  listener i' = Some (current i') /\
  isEditing (st (current i')) = isEditing (st (current i)) /\
  isHovered (st (current i')) = isHovered (st (current i)).
Proof.
  intros Hr Hl He i'.
  destruct (mouse_down_starts_drag Number_toString i clientX clientY
              (reachable_well_formed Number_toString i Hr) Hl He)
    as (r1 & Hcur & Hlis & _ & Hd & _).
  fold i' in Hcur, Hlis. rewrite Hcur. repeat split; try assumption.
  - rewrite step_unfold. cbn [snd]. unfold dispatch, CanvasElement.dispatch.
    cbn [CanvasElement.CanvasElement element].
    destruct He as [e ->]. unfold handleMouseDown. rewrite Hl.
    destruct (onSelect (props (current i))); reflexivity.
  - rewrite <- Hcur. unfold i'. rewrite step_unfold.
    unfold dispatch, CanvasElement.dispatch.
    cbn [CanvasElement.CanvasElement element].
    destruct He as [e ->]. unfold handleMouseDown. rewrite Hl.
    destruct (onSelect (props (current i))); reflexivity.
  - rewrite <- Hcur. unfold i'. rewrite step_unfold.
    unfold dispatch, CanvasElement.dispatch.
    cbn [CanvasElement.CanvasElement element].
    destruct He as [e ->]. unfold handleMouseDown. rewrite Hl.
    destruct (onSelect (props (current i))); reflexivity.
Qed.

(** Outside text and sticky, the handler of a double-click, where one
    is attached, stops the propagation of the event and does no more. *)
Lemma double_click_elsewhere (i : Instance) :
  get_locked (props (current i)) = false ->
  type (props (current i)) <> text ->
  type (props (current i)) <> sticky ->
  dispatch i DoubleClick = [] \/ dispatch i DoubleClick = [stopPropagation].
Proof.
  intros Hl Ht Hs. unfold dispatch, CanvasElement.dispatch.
  cbn [CanvasElement.CanvasElement element].
  unfold renderElement, CanvasElement.renderElement, renderKanbanBoard.
  destruct (type (props (current i))) eqn:Hty; try contradiction;
    cbn [onDoubleClick]; auto.
  - right. unfold handleDoubleClick. rewrite Hl, Hty. reflexivity.
  - destruct (get_points (props (current i))) as [|p0 [|p1 rest]]; auto.
  - destruct (kanbanData (props (current i))); auto.
Qed.

(** X7: on an unlocked element, a double-click enters Editing for the
    kinds text and sticky, and for them only; it calls nothing and
    touches neither Dragging nor the listeners.  On every other kind it
    changes nothing. *)
Theorem double_click_enters_editing (i : Instance) :
  get_locked (props (current i)) = false ->
  match type (props (current i)) with
  | text | sticky =>
      isEditing (st (current (step i DoubleClick).1)) = true /\
      isDragging (st (current (step i DoubleClick).1)) = isDragging (st (current i)) /\
      listener (step i DoubleClick).1 = listener i /\
      (step i DoubleClick).2 = []
  | _ => step i DoubleClick = (i, [])
  end.
Proof.
  intros Hl.
  pose proof (step_continues_drag Number_toString i DoubleClick I) as [Hlis Hd].
  assert (type (props (current i)) <> text ->
          type (props (current i)) <> sticky ->
          step i DoubleClick = (i, [])) as Helse.
  { intros Ht Hs.
    destruct (double_click_elsewhere i Hl Ht Hs) as [E|E].
    - apply step_no_actions; [exact E|exact I].
    - rewrite step_state_free, E; [reflexivity| |exact I].
      rewrite E. repeat constructor. }
  destruct (type (props (current i))) eqn:Hty;
    try (apply Helse; discriminate).
  all: split; [|split; [exact Hd|split; [exact Hlis|]]];
    rewrite step_unfold; unfold dispatch, CanvasElement.dispatch;
    cbn [CanvasElement.CanvasElement element];
    unfold renderElement, CanvasElement.renderElement; rewrite Hty;
    cbn [onDoubleClick]; unfold handleDoubleClick; rewrite Hl, Hty; reflexivity.
Qed.

(** X8: while a text element or a sticky note is edited, losing focus
    and the Escape key leave Editing; any other key changes nothing.
    None of them calls anything. *)
Theorem editing_ends_on_blur_or_escape (i : Instance) (key : string) :
  type (props (current i)) = text \/ type (props (current i)) = sticky ->
  isEditing (st (current i)) = true ->
  (isEditing (st (current (step i TextareaBlur).1)) = false /\
   (step i TextareaBlur).2 = []) /\
  (isEditing (st (current (step i (TextareaKeyDown "Escape")).1)) = false /\
   (step i (TextareaKeyDown "Escape")).2 = []) /\
  (key <> "Escape"%string -> step i (TextareaKeyDown key) = (i, [])).
Proof.
  intros Hty He. destruct (editing_surface (current i) Hty He) as [ph Hs].
  cbn [CanvasElement.CanvasElement element] in Hs.
  split; [|split].
  - rewrite step_unfold. unfold dispatch, CanvasElement.dispatch.
    cbn [CanvasElement.CanvasElement element]. rewrite Hs. split; reflexivity.
  - rewrite step_unfold. unfold dispatch, CanvasElement.dispatch.
    cbn [CanvasElement.CanvasElement element]. rewrite Hs. split; reflexivity.
  - intros Hkey. apply step_no_actions; [|exact I].
    unfold dispatch, CanvasElement.dispatch.
    cbn [CanvasElement.CanvasElement element]. rewrite Hs.
    apply String.eqb_neq in Hkey. rewrite Hkey. reflexivity.
Qed.

(** X9: while a text element or a sticky note is edited, every change
    of the textarea is passed to [onUpdate] at once as [{ content }],
    and nothing is kept locally: the component is unchanged, and the
    textarea goes on showing the [content] prop. *)
Theorem content_change_is_forwarded (i : Instance) (value : string) :
  type (props (current i)) = text \/ type (props (current i)) = sticky ->
  isEditing (st (current i)) = true ->
  step i (TextareaChange value) =
    (i, match onUpdate (props (current i)) with
        | Some f => [call_onUpdate f (id (props (current i))) (content_update value)]
        | None => []
        end) /\
  exists placeholder,
    inner <$> renderElement (current i)
    = Some (Textarea (get_content (props (current i))) placeholder).
Proof.
  intros Hty He. destruct (editing_surface (current i) Hty He) as [ph Hs].
  split; [|exists ph; exact Hs].
  assert (dispatch i (TextareaChange value) = handleContentChange (current i) value)
    as Hdis.
  { unfold dispatch, CanvasElement.dispatch.
    cbn [CanvasElement.CanvasElement element]. rewrite Hs. reflexivity. }
  rewrite step_state_free, Hdis; [| |exact I].
  - unfold handleContentChange. rewrite calls_of_optional_call. reflexivity.
  - rewrite Hdis. apply optional_call_state_free.
Qed.

(** X10: a click on the lock button, which is there when the element is
    selected or hovered and is no kanban board, asks [onUpdate] for the
    opposite of the current [locked], also on a locked element, and
    changes nothing in the component; without the button nothing
    happens. *)
Theorem lock_click_requests_toggle (i : Instance) :
  let p := props (current i) in
  (type p <> kanban ->
   get_isSelected p || isHovered (st (current i)) = true ->
   step i LockClick =
     (i, match onUpdate p with
         | Some f => [call_onUpdate f (id p) (locked_update (negb (get_locked p)))]
         | None => []
         end)) /\
  (type p = kanban \/ get_isSelected p || isHovered (st (current i)) = false ->
   step i LockClick = (i, [])).
Proof.
  intros p. split.
  - intros Hty Hshown.
    assert (dispatch i LockClick = handleLockToggle (current i)) as Hdis.
    { unfold dispatch, CanvasElement.dispatch.
      cbn [CanvasElement.CanvasElement controls]. fold p. rewrite Hshown.
      destruct (type p); try contradiction; reflexivity. }
    rewrite step_state_free, Hdis; [| |exact I].
    + unfold handleLockToggle. rewrite calls_of_optional_call. reflexivity.
    + rewrite Hdis. apply optional_call_state_free.
  - intros Hnot. apply step_no_actions; [|exact I].
    unfold dispatch, CanvasElement.dispatch.
    cbn [CanvasElement.CanvasElement controls]. fold p.
    destruct Hnot as [-> | ->]; [rewrite andb_false_r|]; reflexivity.
Qed.

(** X11: a new board value reported by the embedded board is passed to
    [onUpdate] unchanged, as [{ kanbanData }], locked or not, and the
    component itself is unchanged; a kanban element without board data
    has no board to report anything. *)
Theorem board_update_is_relayed (i : Instance) (newKanbanData : KanbanData) :
  let p := props (current i) in
  type p = kanban ->
  (is_Some (kanbanData p) ->
   step i (BoardUpdate newKanbanData) =
     (i, match onUpdate p with
         | Some f => [call_onUpdate f (id p) (kanban_update newKanbanData)]
         | None => []
         end)) /\
  (kanbanData p = None -> step i (BoardUpdate newKanbanData) = (i, [])).
Proof.
  intros p Hty. split.
  - intros [data Hdata].
    assert (dispatch i (BoardUpdate newKanbanData)
            = handleKanbanUpdate (current i) newKanbanData) as Hdis.
    { unfold dispatch, CanvasElement.dispatch.
      cbn [CanvasElement.CanvasElement element].
      unfold renderElement, CanvasElement.renderElement, renderKanbanBoard.
      fold p. rewrite Hty, Hdata. reflexivity. }
    rewrite step_state_free, Hdis; [| |exact I].
    + unfold handleKanbanUpdate. rewrite calls_of_optional_call. reflexivity.
    + rewrite Hdis. apply optional_call_state_free.
  - intros Hdata. apply step_no_actions; [|exact I].
    unfold dispatch, CanvasElement.dispatch.
    cbn [CanvasElement.CanvasElement element].
    unfold renderElement, CanvasElement.renderElement, renderKanbanBoard.
    fold p. rewrite Hty, Hdata. reflexivity.
Qed.

(** X12: a shape that is not drawn takes no event: pointer-down,
    double-click, click, hover, textarea and board events change
    nothing and call nothing. *)
Theorem undrawn_shape_ignores_events (i : Instance) (ev : Event) :
  renderElement (current i) = None ->
  on_shape ev ->
  step i ev = (i, []).
Proof.
  intros Hnone Hev. apply step_no_actions; [|destruct ev; try exact I; contradiction].
  unfold dispatch, CanvasElement.dispatch.
  cbn [CanvasElement.CanvasElement element]. rewrite Hnone.
  destruct ev; try contradiction; reflexivity.
Qed.

(** X13: rendering with new props keeps the state cells and the
    listeners on [document], whatever the props are, and calls nothing:
    no prop is a dependency of the effect. *)
Theorem new_props_keep_listeners (i : Instance) (p : CanvasElementProps) :
  step i (NewProps p) =
    ({| current := {| props := p; st := st (current i) |};
        listener := listener i;
        next_ref := next_ref i |}, []).
Proof.
  rewrite step_unfold. cbn [dispatch CanvasElement.dispatch apply_actions fold_left
                            fst snd calls_of omap].
  unfold commit. destruct (decide _) as [_|Hne]; [reflexivity|].
  exfalso. apply Hne. reflexivity.
Qed.

(** X14: on a drawn element that is no kanban board, the toolbar with
    the lock button is there once the pointer has entered the shape,
    and after the pointer has left it is there exactly when the element
    is selected; a kanban board never has the toolbar. *)
Theorem hover_shows_toolbar (i : Instance) :
  let p := props (current i) in
  (type p <> kanban -> is_Some (renderElement (current i)) ->
   is_Some (controls (CanvasElement (current (step i MouseEnter).1))) /\
   (is_Some (controls (CanvasElement (current (step i MouseLeave).1)))
    <-> get_isSelected p = true)) /\
  (type p = kanban -> controls (CanvasElement (current i)) = None).
Proof.
  intros p. split.
  - subst p. intros Hty [e He].
    rewrite !step_unfold. unfold dispatch, CanvasElement.dispatch.
    cbn [CanvasElement.CanvasElement element]. rewrite He.
    cbn [fst commit current props st apply_actions fold_left set_state
         isHovered controls].
    unfold CanvasElement.CanvasElement. cbn [controls props st isHovered].
    assert (match type (props (current i)) with kanban => true | _ => false end
            = false) as ->
      by (destruct (type (props (current i))); try contradiction; reflexivity).
    rewrite orb_true_r, orb_false_r. cbn [negb andb].
    split; [eexists; reflexivity|].
    destruct (get_isSelected (props (current i))); split; intros H;
      solve [reflexivity | eexists; reflexivity | discriminate
            | destruct H as [c Hc]; discriminate].
  - intros Hty. cbn [CanvasElement.CanvasElement controls]. fold p.
    rewrite Hty, andb_false_r. reflexivity.
Qed.

End WithFormatting.

Lemma listeners_exactly_while_dragging_witness :
  is_Some (listener (step integer_toString (mount (sample rectangle))
                       (MouseDown 45 36)).1) /\
  listener (mount (sample rectangle)) = None.
Proof.
  split.
  - apply (listeners_exactly_while_dragging integer_toString _
             (reachable_step _ _ (MouseDown 45 36) (reachable_mount _ (sample rectangle)))).
    reflexivity.
  - reflexivity.
Defined.

Lemma never_resizing_witness :
  isResizing
    (st (current (step integer_toString
                    (step integer_toString (mount (sample circle)) (MouseDown 1 2)).1
                    DocumentMouseUp).1)) = false.
Proof.
  apply (never_resizing integer_toString).
  apply reachable_step, reachable_step, reachable_mount.
Defined.

Lemma pointer_up_ends_drag_witness :
  let i := (step integer_toString (mount (sample rectangle)) (MouseDown 45 36)).1 in
  isDragging (st (current i)) = true /\
  isDragging (st (current (step integer_toString i DocumentMouseUp).1)) = false /\
  listener (step integer_toString i DocumentMouseUp).1 = None.
Proof.
  cbv zeta. split; [reflexivity|].
  destruct (pointer_up_ends_drag integer_toString _
              (reachable_step _ _ (MouseDown 45 36) (reachable_mount _ (sample rectangle))))
    as (H1 & H2 & _).
  split; assumption.
Defined.

Lemma pointer_move_changes_nothing_witness :
  step integer_toString (mount (sample rectangle)) (DocumentMouseMove 3 4)
  = (mount (sample rectangle), []).
Proof.
  apply (pointer_move_changes_nothing integer_toString (mount (sample rectangle)) 3 4).
  - apply reachable_mount.
  - reflexivity.
Defined.

Lemma dragging_move_always_requests_witness :
  let i := (step integer_toString
              (step integer_toString (mount (sample rectangle)) (MouseDown 45 36)).1
              (NewProps (with_locked true (sample rectangle)))).1 in
  get_locked (props (current i)) = true /\
  (step integer_toString i (DocumentMouseMove 60 70)).2
  = [call_onUpdate 1%nat "e1" (position_update 55 64)].
Proof.
  cbv zeta. split; [reflexivity|].
  destruct (dragging_move_always_requests integer_toString _ 60 70
              (reachable_step _ _ (NewProps (with_locked true (sample rectangle)))
                 (reachable_step _ _ (MouseDown 45 36)
                    (reachable_mount _ (sample rectangle))))
              eq_refl) as (r0 & Hlis & Hcalls).
  injection Hlis as <-. exact Hcalls.
Defined.

Lemma pointer_down_selects_and_starts_drag_witness :
  (step integer_toString (mount (sample rectangle)) (MouseDown 45 36)).2
  = [call_onSelect 2%nat "e1"].
Proof.
  assert (is_Some (renderElement integer_toString (current (mount (sample rectangle)))))
    as He by (eexists; reflexivity).
  exact (proj1 (pointer_down_selects_and_starts_drag integer_toString
                  (mount (sample rectangle)) 45 36
                  (reachable_mount _ _) eq_refl He)).
Defined.

Lemma double_click_enters_editing_witness :
  isEditing (st (current (step integer_toString (mount (sample text)) DoubleClick).1))
  = true /\
  step integer_toString (mount (sample frame)) DoubleClick = (mount (sample frame), []).
Proof.
  split.
  - exact (proj1 (double_click_enters_editing integer_toString
                    (mount (sample text)) eq_refl)).
  - exact (double_click_enters_editing integer_toString (mount (sample frame)) eq_refl).
Defined.

Lemma editing_ends_on_blur_or_escape_witness :
  let i := (step integer_toString (mount (sample sticky)) ContentClick).1 in
  isEditing (st (current i)) = true /\
  isEditing (st (current (step integer_toString i TextareaBlur).1)) = false /\
  step integer_toString i (TextareaKeyDown "Enter") = (i, []).
Proof.
  cbv zeta. split; [reflexivity|].
  destruct (editing_ends_on_blur_or_escape integer_toString
              (step integer_toString (mount (sample sticky)) ContentClick).1
              "Enter" (or_intror eq_refl) eq_refl) as ((H1 & _) & _ & H3).
  split; [exact H1|]. apply H3. discriminate.
Defined.

Lemma content_change_is_forwarded_witness :
  let i := (step integer_toString (mount (sample text)) DoubleClick).1 in
  step integer_toString i (TextareaChange "hello")
  = (i, [call_onUpdate 1%nat "e1" (content_update "hello")]).
Proof.
  exact (proj1 (content_change_is_forwarded integer_toString
                  (step integer_toString (mount (sample text)) DoubleClick).1
                  "hello" (or_introl eq_refl) eq_refl)).
Defined.

Lemma lock_click_requests_toggle_witness :
  step integer_toString (mount (with_isSelected true (sample rectangle))) LockClick
  = (mount (with_isSelected true (sample rectangle)),
     [call_onUpdate 1%nat "e1" (locked_update true)]) /\
  step integer_toString (mount (sample rectangle)) LockClick
  = (mount (sample rectangle), []).
Proof.
  split.
  - apply (lock_click_requests_toggle integer_toString
             (mount (with_isSelected true (sample rectangle))));
      [discriminate | reflexivity].
  - apply (lock_click_requests_toggle integer_toString (mount (sample rectangle))).
    right. reflexivity.
Defined.

Lemma board_update_is_relayed_witness :
  let i := mount (with_locked true (with_kanbanData sample_board (sample kanban))) in
  step integer_toString i (BoardUpdate {| columns := [] |})
  = (i, [call_onUpdate 1%nat "e1" (kanban_update {| columns := [] |})]).
Proof.
  cbv zeta.
  destruct (board_update_is_relayed integer_toString
              (mount (with_locked true (with_kanbanData sample_board (sample kanban))))
              {| columns := [] |} eq_refl) as [H _].
  apply H. eexists. reflexivity.
Defined.

Lemma undrawn_shape_ignores_events_witness :
  step integer_toString (mount (sample pen)) (MouseDown 45 36)
  = (mount (sample pen), []) /\
  step integer_toString (mount (sample kanban)) MouseEnter
  = (mount (sample kanban), []).
Proof.
  split.
  - apply (undrawn_shape_ignores_events integer_toString); [reflexivity|exact I].
  - apply (undrawn_shape_ignores_events integer_toString); [reflexivity|exact I].
Defined.

Lemma hover_shows_toolbar_witness :
  controls (CanvasElement integer_toString
              (current (step integer_toString (mount (sample rectangle)) MouseEnter).1))
  = Some {| controls_left := 40; controls_top := 30 - 48; title := "Lock" |} /\
  controls (CanvasElement integer_toString (current (mount (sample rectangle)))) = None.
Proof.
  destruct (hover_shows_toolbar integer_toString (mount (sample rectangle)))
    as [H _].
  destruct H as [[c Hc] _]; [discriminate | eexists; reflexivity |].
  split; [|reflexivity]. rewrite Hc. vm_compute in Hc. injection Hc as <-.
  reflexivity.
Defined.

End CanvasElementLifecycle.

(* ===================================================================== *)
(** ** Further properties of what a canvas element draws *)
(* ===================================================================== *)

Module CanvasElementRenderMore.
Import CanvasElement CanvasElementRenderFacts.

Section WithFormatting.

Variable Number_toString : number -> string.

Local Abbreviation renderElement := (renderElement Number_toString).


(** X16: the box of a pen stroke has a width and a height that are not
    negative, and every point of the path, taken relative to the left
    and top of the box, lies inside it. *)
Theorem pen_path_inside_box (r : Render) :
  type (props r) = pen ->
  (2 <= length (get_points (props r)))%nat ->
  exists e w h d stroke stroke_width,
    renderElement r = Some e /\
    inner e = SvgPath w h d stroke stroke_width /\
    style_width e = Some (Px w) /\ style_height e = Some (Px h) /\
    0 <= w /\ 0 <= h /\
    forall q, In q (get_points (props r)) ->
      0 <= px q - style_left e /\ px q - style_left e <= w /\
      0 <= py q - style_top e /\ py q - style_top e <= h.
Proof.
  intros Hty Hlen.
  unfold renderElement, CanvasElement.renderElement. rewrite Hty.
  destruct (get_points (props r)) as [|p0 [|p1 rest]];
    [simpl in Hlen; lia | simpl in Hlen; lia |].
  destruct (Math_min_is_minimum (map px (p1 :: rest)) (px p0)) as [Hminx_in Hminx].
  destruct (Math_min_is_minimum (map py (p1 :: rest)) (py p0)) as [Hminy_in Hminy].
  destruct (Math_max_is_maximum (map px (p1 :: rest)) (px p0)) as [_ Hmaxx].
  destruct (Math_max_is_maximum (map py (p1 :: rest)) (py p0)) as [_ Hmaxy].
  eexists _, _, _, _, _, _.
  split; [reflexivity|]. cbn [inner style_width style_height style_left style_top].
  split; [reflexivity|]. split; [reflexivity|]. split; [reflexivity|].
  assert (forall q, In q (p0 :: p1 :: rest) ->
            In (px q) (px p0 :: map px (p1 :: rest)) /\
            In (py q) (py p0 :: map py (p1 :: rest))) as Hin.
  { intros q Hq. split.
    - apply (in_map px) in Hq. exact Hq.
    - apply (in_map py) in Hq. exact Hq. }
  split; [|split].
  - unfold Qminus. rewrite <- Qle_minus_iff. apply Hmaxx. exact Hminx_in.
  - unfold Qminus. rewrite <- Qle_minus_iff. apply Hmaxy. exact Hminy_in.
  - intros q Hq. destruct (Hin q Hq) as [Hx Hy].
    unfold Qminus. rewrite <- !Qle_minus_iff.
    repeat split.
    + apply Hminx. exact Hx.
    + apply Qplus_le_compat; [apply Hmaxx; exact Hx|apply Qle_refl].
    + apply Hminy. exact Hy.
    + apply Qplus_le_compat; [apply Hmaxy; exact Hy|apply Qle_refl].
Qed.

(** X17: a pen stroke is drawn from its points alone: the props [x],
    [y], [width] and [height] and the local state have no influence on
    the shape, so a position requested by a drag does not move it. *)
Theorem pen_ignores_geometry
    (r : Render) (a b : number) (w h : option number) (s : State) :
  type (props r) = pen ->
  renderElement {| props := with_geometry a b w h (props r); st := s |}
  = renderElement r.
Proof.
  intros Hty. unfold renderElement, CanvasElement.renderElement.
  cbn [props type with_geometry]. rewrite Hty. reflexivity.
Qed.


(** X19: outside Editing, a text element or a sticky note shows its
    content, or the hint "Double-click to edit" when the content is
    empty or absent: the text shown is never empty. *)
Theorem shown_text_is_content_or_hint (r : Render) :
  type (props r) = text \/ type (props r) = sticky ->
  isEditing (st r) = false ->
  exists e shown onClick,
    renderElement r = Some e /\
    inner e = Content shown onClick /\
    shown <> ""%string /\
    (get_content (props r) <> ""%string -> shown = get_content (props r)) /\
    (get_content (props r) = ""%string -> shown = "Double-click to edit"%string).
Proof.
  intros Hty He. unfold renderElement, CanvasElement.renderElement.
  destruct Hty as [-> | ->]; rewrite He; eexists _, _, _;
    (split; [reflexivity|]); (split; [reflexivity|]);
    unfold or_else; destruct (get_content (props r));
    repeat split; congruence.
Qed.

(** X20: the amber fallback of a sticky note is used only when the
    [color] prop is the empty string (or is amber itself): with the
    prop absent, the default ['#6366f1'] comes first, so a sticky note
    without a colour is indigo. *)
Theorem sticky_background (r : Render) (e : Element) :
  type (props r) = sticky ->
  renderElement r = Some e ->
  (color (props r) = None -> style_backgroundColor e = Some "#6366f1"%string) /\
  (style_backgroundColor e = Some "#fbbf24"%string <->
   color (props r) = Some ""%string \/ color (props r) = Some "#fbbf24"%string).
Proof.
  intros Hty. unfold renderElement, CanvasElement.renderElement. rewrite Hty.
  intros [= <-]. cbn [style_backgroundColor]. unfold get_color.
  destruct (color (props r)) as [c|]; cbn [default].
  - split; [discriminate|]. unfold or_else. destruct c as [|a c'].
    + split; auto.
    + split.
      * intros H. right. exact H.
      * intros [H|H]; [discriminate|exact H].
  - split; [reflexivity|]. cbn. split; [discriminate|intros [H|H]; discriminate].
Qed.

Lemma auto_size_cases (v : number) :
  (Some (if Qeq_bool v 100 then Auto else Px v) = Some Auto <-> v == 100) /\
  (forall n, Some (if Qeq_bool v 100 then Auto else Px v) = Some (Px n) -> ~ n == 100).
Proof.
  destruct (Qeq_bool v 100) eqn:E.
  - apply Qeq_bool_iff in E. split; [split; auto|discriminate].
  - apply Qeq_bool_neq in E. split.
    + split; [discriminate|contradiction].
    + intros n [= <-]. exact E.
Qed.

(** X21: a text element is drawn with width ['auto'] exactly when its
    width is 100, given or defaulted, so it is never drawn 100 wide;
    the same holds for its height. *)
Theorem text_is_never_100 (r : Render) (e : Element) :
  type (props r) = text ->
  renderElement r = Some e ->
  (style_width e = Some Auto <-> get_width (props r) == 100) /\
  (style_height e = Some Auto <-> get_height (props r) == 100) /\
  (forall n, style_width e = Some (Px n) -> ~ n == 100) /\
  (forall n, style_height e = Some (Px n) -> ~ n == 100).
Proof.
  intros Hty. unfold renderElement, CanvasElement.renderElement. rewrite Hty.
  intros [= <-]. cbn [style_width style_height].
  destruct (auto_size_cases (get_width (props r))) as [Hw1 Hw2].
  destruct (auto_size_cases (get_height (props r))) as [Hh1 Hh2].
  repeat split; solve [apply Hw1 | apply Hw2 | apply Hh1 | apply Hh2].
Qed.

End WithFormatting.

Lemma pen_path_inside_box_witness :
  exists e,
    renderElement integer_toString
      {| props := with_points sample_stroke (sample pen); st := initial_state |}
    = Some e /\
    forall q, In q sample_stroke ->
      0 <= px q - style_left e /\ px q - style_left e <= 10.
Proof.
  assert (2 <= length (get_points (with_points sample_stroke (sample pen))))%nat
    as Hlen by (vm_compute; lia).
  destruct (pen_path_inside_box integer_toString
              {| props := with_points sample_stroke (sample pen);
                 st := initial_state |} eq_refl Hlen)
    as (e & w & h & d & c & sw & He & Hi & Hw & _ & _ & _ & Hq).
  exists e. split; [exact He|].
  intros q Hin. destruct (Hq q Hin) as (H1 & H2 & _).
  split; [exact H1|].
  vm_compute in He. injection He as <-. injection Hw as <-. exact H2.
Defined.

Lemma pen_ignores_geometry_witness :
  renderElement integer_toString
    {| props := with_geometry 500 600 (Some 7) None
                  (with_points sample_stroke (sample pen));
       st := initial_state |}
  = renderElement integer_toString
      {| props := with_points sample_stroke (sample pen); st := initial_state |}.
Proof.
  apply (pen_ignores_geometry integer_toString
           {| props := with_points sample_stroke (sample pen); st := initial_state |}).
  reflexivity.
Defined.


Lemma shown_text_is_content_or_hint_witness :
  exists e,
    renderElement integer_toString {| props := sample text; st := initial_state |}
    = Some e /\
    inner e = Content "Double-click to edit" false.
Proof.
  destruct (shown_text_is_content_or_hint integer_toString
              {| props := sample text; st := initial_state |}
              (or_introl eq_refl) eq_refl)
    as (e & shown & onClick & He & Hi & _ & _ & Hhint).
  exists e. split; [exact He|].
  rewrite Hi, (Hhint eq_refl).
  vm_compute in He. injection He as <-. injection Hi as _ <-. reflexivity.
Defined.

Lemma sticky_background_witness :
  exists e,
    renderElement integer_toString {| props := sample sticky; st := initial_state |}
    = Some e /\
    style_backgroundColor e = Some "#6366f1"%string.
Proof.
  eexists. split; [reflexivity|].
  apply (sticky_background integer_toString
           {| props := sample sticky; st := initial_state |} _ eq_refl eq_refl).
  reflexivity.
Defined.

Lemma text_is_never_100_witness :
  exists e,
    renderElement integer_toString
      {| props := with_geometry 0 0 (Some (200 # 2)) (Some 50) (sample text);
         st := initial_state |}
    = Some e /\
    style_width e = Some Auto /\ style_height e = Some (Px 50).
Proof.
  eexists. split; [reflexivity|]. split; [|reflexivity].
  apply (text_is_never_100 integer_toString
           {| props := with_geometry 0 0 (Some (200 # 2)) (Some 50) (sample text);
              st := initial_state |} _ eq_refl eq_refl).
  reflexivity.
Defined.

End CanvasElementRenderMore.

(* ===================================================================== *)
(** ** Further properties of the cursor overlay *)
(* ===================================================================== *)

Module CollaborationCursorsMore.
Import CollaborationCursors CollaborationCursorsFacts.

Lemma palette_has_no_duplicate : NoDup cursorColors.
Proof.
  apply (bool_decide_unpack _). vm_compute. exact I.
Qed.

(** X22: the overlay has one marker per cursor, in the order of the
    list; a marker's React key is the id of its user and its label the
    user's name. *)
Theorem one_marker_per_cursor (cursors : list CursorPosition) (zoom : number) :
  length (CollaborationCursors cursors zoom) = length cursors /\
  map key (CollaborationCursors cursors zoom)
  = map (fun c => user_id (user c)) cursors /\
  map label (CollaborationCursors cursors zoom)
  = map (fun c => name (user c)) cursors.
Proof.
  unfold CollaborationCursors. split; [apply length_imap|].
  split; apply list_eq; intros i;
    rewrite !list_lookup_fmap, list_lookup_imap;
    destruct (cursors !! i); reflexivity.
Qed.

(** X23: two markers of one overlay, or of two overlays, have the same
    colour exactly when their indices agree modulo 8: the palette has
    no colour twice. *)
Theorem marker_colors_agree_iff
    (cursors cursors' : list CursorPosition) (zoom zoom' : number)
    (i j : nat) (m m' : Marker) :
  CollaborationCursors cursors zoom !! i = Some m ->
  CollaborationCursors cursors' zoom' !! j = Some m' ->
  (color m = color m' <-> (i mod 8 = j mod 8)%nat).
Proof.
  rewrite !lookup_marker. intros Hm Hm'.
  destruct (cursors !! i) as [c|]; [|discriminate].
  destruct (cursors' !! j) as [c'|]; [|discriminate].
  injection Hm as <-. injection Hm' as <-. cbn [renderCursor color].
  change (length cursorColors) with 8%nat.
  destruct (palette_lookup i) as [col Hcol].
  destruct (palette_lookup j) as [col' Hcol'].
  split.
  - rewrite Hcol, Hcol'. intros [= <-].
    exact (NoDup_lookup _ _ _ _ palette_has_no_duplicate Hcol Hcol').
  - intros ->. reflexivity.
Qed.

Lemma marker_colors_agree_iff_witness :
  color <$> CollaborationCursors sample_cursors 100 !! 1%nat
  = color <$> CollaborationCursors sample_cursors 50 !! 9%nat.
Proof.
  destruct (CollaborationCursors sample_cursors 100 !! 1%nat) as [m|] eqn:Hm;
    [|discriminate Hm].
  destruct (CollaborationCursors sample_cursors 50 !! 9%nat) as [m'|] eqn:Hm';
    [|discriminate Hm'].
  cbn [fmap option_fmap option_map]. f_equal.
  apply (marker_colors_agree_iff _ _ _ _ _ _ _ _ Hm Hm'). reflexivity.
Defined.

(** X24: at zoom 100 a marker sits at the raw coordinates of its cursor,
    and at zoom 0 every marker sits at the origin. *)
Theorem zoom_100_is_identity
    (cursors : list CursorPosition) (i : nat) (c : CursorPosition) :
  cursors !! i = Some c ->
  (exists m, CollaborationCursors cursors 100 !! i = Some m /\
             left m == x c /\ top m == y c) /\
  (exists m, CollaborationCursors cursors 0 !! i = Some m /\
             left m == 0 /\ top m == 0).
Proof.
  intros Hc. split; eexists; (split; [rewrite lookup_marker, Hc; reflexivity|]);
    cbn [renderCursor left top]; split; field.
Qed.

Lemma zoom_100_is_identity_witness :
  exists m, CollaborationCursors sample_cursors 100 !! 9%nat = Some m /\
            left m == 3 # 2 /\ top m == -4.
Proof.
  destruct (zoom_100_is_identity sample_cursors 9
              {| user := sample_user "bob"; x := 3 # 2; y := -4 |} eq_refl)
    as [(m & Hm & Hl & Ht) _].
  exists m. split; [exact Hm|]. split; [exact Hl|exact Ht].
Defined.

End CollaborationCursorsMore.
